(** * Verification of the AI-Document-Converter backend core

    Shallow embedding of the Python backend (FastAPI/Flask front ends,
    Celery tasks, file_processor and ai_service modules).  Python
    exceptions become [Raise] results of a small state-and-error monad;
    the state is whatever the modelled code touches (an effect trace, the
    file system, the task store). *)

From Stdlib Require Import String Ascii List ZArith Bool Lia.
Import ListNotations.
Open Scope string_scope.

(* ------------------------------------------------------------------ *)
(** ** Python strings *)

Module PyStr.

(** [str.isspace] restricted to ASCII: \t \n \v \f \r, the separators
    \x1c-\x1f, and the space. *)
Definition isspace (c : ascii) : bool :=
  let n := nat_of_ascii c in
  ((9 <=? n) && (n <=? 13))%nat || ((28 <=? n) && (n <=? 32))%nat.

Fixpoint lstrip (s : string) : string :=
  match s with
  | EmptyString => EmptyString
  | String c s' => if isspace c then lstrip s' else s
  end.

Fixpoint rstrip (s : string) : string :=
  match s with
  | EmptyString => EmptyString
  | String c s' =>
      let r := rstrip s' in
      if isspace c && String.eqb r EmptyString then EmptyString else String c r
  end.

(** [str.strip()] with no argument. *)
Definition strip (s : string) : string := rstrip (lstrip s).

(** [sep.join(xs)]. *)
Fixpoint join (sep : string) (xs : list string) : string :=
  match xs with
  | [] => EmptyString
  | [x] => x
  | x :: r => x ++ sep ++ join sep r
  end.

(** Python truthiness of a [str]. *)
Definition truthy (s : string) : bool := negb (String.eqb s EmptyString).

(** [a or b] on strings. *)
Definition or_str (a b : string) : string := if truthy a then a else b.

Definition nl : string := String "010"%char EmptyString.

End PyStr.

(* ------------------------------------------------------------------ *)
(** ** Exceptions and the state-and-error monad *)

(** A raised Python exception: its class name and [str(e)]. *)
Record exn := Exn { exn_class : string; exn_msg : string }.

Inductive res (A : Type) : Type :=
| Ok (a : A)
| Raise (e : exn).
Arguments Ok {A} a.
Arguments Raise {A} e.

Definition M (S A : Type) : Type := S -> res A * S.

Section Monad.
Context {S : Type}.

Definition ret {A} (a : A) : M S A := fun s => (Ok a, s).
Definition raise {A} (e : exn) : M S A := fun s => (Raise e, s).
Definition bind {A B} (m : M S A) (k : A -> M S B) : M S B :=
  fun s => match m s with
           | (Ok a, s') => k a s'
           | (Raise e, s') => (Raise e, s')
           end.

(** [try: m except Exception as e: h(e)]. *)
Definition try_except {A} (m : M S A) (h : exn -> M S A) : M S A :=
  fun s => match m s with
           | (Ok a, s') => (Ok a, s')
           | (Raise e, s') => h e s'
           end.

(** [try: m finally: c]: the cleanup always runs; an exception it raises
    replaces the outcome of [m]. *)
Definition try_finally {A} (m : M S A) (c : M S unit) : M S A :=
  fun s => match m s with
           | (r, s1) => match c s1 with
                        | (Ok _, s2) => (r, s2)
                        | (Raise e, s2) => (Raise e, s2)
                        end
           end.

(** Lift a fallible external result. *)
Definition lift {A} (r : res A) : M S A := fun s => (r, s).

End Monad.

Notation "x <- m ;; k" := (bind m (fun x => k))
  (at level 61, m at next level, right associativity).
Notation "m ;;; k" := (bind m (fun _ => k))
  (at level 61, right associativity).

(* ------------------------------------------------------------------ *)
(** ** PDF text extraction (Extraction Engine)

    A PDF is either unopenable ([fitz.open] raises) or the list of what
    iterating the document yields at each index: [doc.load_page(i)],
    which raises for a page that cannot be loaded (an encrypted
    document, a damaged page tree), or a page.  For a loaded page we
    record what [page.get_text("text", sort=True)] yields and what the
    OCR pipeline ([get_pixmap(dpi=300)], [Image.frombytes],
    [pytesseract.image_to_string]) yields, each of which may raise.
    Loading a page is deterministic: both passes over the document see
    the same outcome. *)

Module Pdf.

Record page := Page { get_text : res string; ocr_text : res string }.

Inductive pdf_file :=
| Unopenable (e : exn)
| Opened (pages : list (res page)).

(** Observable effects: entering the OCR helper, OCR of page [i]
    (0-based, as [enumerate]), direct text of page [i], closing. *)
Inductive event := EvOcrStart | EvOcr (i : nat) | EvGetText (i : nat) | EvClose.

Definition PM := M (list event).

Definition tell (e : event) : PM unit := fun tr => (Ok tt, List.app tr [e]).

Definition page_break : string :=
  PyStr.nl ++ PyStr.nl ++ "--- Page Break ---" ++ PyStr.nl ++ PyStr.nl.

(** The Tier-1 generator [page.get_text(...) for page in doc]; an
    exception in loading or reading any page propagates out of the
    join. *)
Fixpoint direct_pages (i : nat) (ps : list (res page)) : PM (list string) :=
  match ps with
  | [] => ret []
  | lp :: r => p <- lift lp ;; tell (EvGetText i) ;;; t <- lift (get_text p) ;;
               ts <- direct_pages (S i) r ;; ret (t :: ts)
  end.

Definition direct_text (ps : list (res page)) : PM string :=
  ts <- direct_pages 0 ps ;; ret (PyStr.join (PyStr.nl ++ PyStr.nl) ts).

(** Pure view of the Tier-1 outcome. *)
Fixpoint tier1 (ps : list (res page)) : res (list string) :=
  match ps with
  | [] => Ok []
  | Raise e :: _ => Raise e
  | Ok p :: r => match get_text p, tier1 r with
                 | Ok t, Ok ts => Ok (t :: ts)
                 | Raise e, _ => Raise e
                 | Ok _, Raise e => Raise e
                 end
  end.

(** backend/services/file_processor.py, [_extract_text_with_ocr]: no
    exception handler, every page output is kept. *)
Fixpoint svc_ocr_pages (i : nat) (ps : list (res page)) : PM (list string) :=
  match ps with
  | [] => ret []
  | lp :: r => p <- lift lp ;; tell (EvOcr i) ;;; t <- lift (ocr_text p) ;;
               ts <- svc_ocr_pages (S i) r ;; ret (t :: ts)
  end.

Definition svc_extract_text_with_ocr (OCR_AVAILABLE : bool) (ps : list (res page)) : PM string :=
  tell EvOcrStart ;;;
  if negb OCR_AVAILABLE then ret "" else
  ts <- svc_ocr_pages 0 ps ;; ret (PyStr.join page_break ts).

(** backend/services/file_processor.py, [extract_text_smart], the
    [.pdf] branch: [with fitz.open(p_in) as doc: ...]. *)
Definition extract_text_smart_pdf (PYMUPDF_AVAILABLE OCR_AVAILABLE : bool)
    (f : pdf_file) : PM string :=
  if negb PYMUPDF_AVAILABLE then raise (Exn "RuntimeError" "PyMuPDF not installed.") else
  match f with
  | Unopenable e => raise e
  | Opened ps =>
      try_finally
        (text <- direct_text ps ;;
         if (100 <? Z.of_nat (String.length (PyStr.strip text)))%Z
         then ret (PyStr.strip text)
         else o <- svc_extract_text_with_ocr OCR_AVAILABLE ps ;;
              ret (PyStr.or_str (PyStr.strip o) (PyStr.strip text)))
        (tell EvClose)
  end.

(** backend/app/services/file_processor.py, [_extract_text_with_ocr]:
    the page is loaded by [for page_num, page in enumerate(pdf_doc)],
    outside the [try]; inside it, a failing page is logged and skipped,
    and an empty page output is not appended ([if page_text:]).  The
    [len(pdf_doc)] of the log line before the loop is taken not to
    raise. *)
Fixpoint app_ocr_pages (i : nat) (ps : list (res page)) : PM (list string) :=
  match ps with
  | [] => ret []
  | lp :: r =>
      p <- lift lp ;;
      ts0 <- try_except
               (tell (EvOcr i) ;;; t <- lift (ocr_text p) ;;
                ret (if PyStr.truthy t then [t] else []))
               (fun _ => ret []) ;;
      ts <- app_ocr_pages (S i) r ;; ret (List.app ts0 ts)
  end.

Definition app_extract_text_with_ocr (OCR_AVAILABLE : bool) (ps : list (res page)) : PM string :=
  tell EvOcrStart ;;;
  if negb OCR_AVAILABLE then ret "" else
  ts <- app_ocr_pages 0 ps ;; ret (PyStr.join page_break ts).

(** backend/app/services/file_processor.py, [extract_text_from_pdf];
    [input_name] is [input_path.name]. *)
Definition extract_text_from_pdf (PYMUPDF_AVAILABLE OCR_AVAILABLE : bool)
    (input_name : string) (f : pdf_file) (ocr_threshold : Z) : PM string :=
  if negb PYMUPDF_AVAILABLE
  then raise (Exn "RuntimeError" "`PyMuPDF` is not installed, cannot process PDF files.") else
  match f with
  | Unopenable e =>
      raise (Exn "FileProcessingError" ("Could not open PDF file '" ++ input_name ++ "': " ++ exn_msg e))
  | Opened ps =>
      tier1_text <- try_except (direct_text ps) (fun _ => ret "") ;;
      if (ocr_threshold <? Z.of_nat (String.length (PyStr.strip tier1_text)))%Z
      then tell EvClose ;;; ret (PyStr.strip tier1_text)
      else try_finally
             (ocr <- app_extract_text_with_ocr OCR_AVAILABLE ps ;;
              if PyStr.truthy (PyStr.strip ocr) then ret (PyStr.strip ocr)
              else ret (PyStr.strip tier1_text))
             (tell EvClose)
  end.

(** Pages for concrete runs. *)
Definition pg (t o : string) : res page := Ok (Page (Ok t) (Ok o)).
Definition ocr_err : exn := Exn "TesseractError" "page unreadable".
Definition load_err : exn := Exn "ValueError" "document closed or encrypted".

Definition only_get_text (ev : list event) : Prop :=
  Forall (fun e => exists j, e = EvGetText j) ev.

(** The Tier-1 text as [extract_text_from_pdf] sees it: the joined page
    texts, or [""] when a page raised. *)
Definition tier1_or_empty (ps : list (res page)) : string :=
  match tier1 ps with
  | Ok ts => PyStr.join (PyStr.nl ++ PyStr.nl) ts
  | Raise _ => ""
  end.

(** The pages loaded before the first page that cannot be loaded, and
    that page's error. *)
Fixpoint loaded_prefix (ps : list (res page)) : list page :=
  match ps with
  | [] => []
  | Raise _ :: _ => []
  | Ok p :: r => p :: loaded_prefix r
  end.

Fixpoint load_error (ps : list (res page)) : option exn :=
  match ps with
  | [] => None
  | Raise e :: _ => Some e
  | Ok _ :: r => load_error r
  end.

(** The non-empty OCR outputs of the pages whose OCR did not raise. *)
Fixpoint ocr_kept (ps : list page) : list string :=
  match ps with
  | [] => []
  | p :: r => match ocr_text p with
              | Ok t => if PyStr.truthy t then t :: ocr_kept r else ocr_kept r
              | Raise _ => ocr_kept r
              end
  end.

(** Pure view of the outcome of the app's OCR helper. *)
Definition app_ocr_outcome (OCR_AVAILABLE : bool) (ps : list (res page)) : res string :=
  if OCR_AVAILABLE
  then match load_error ps with
       | None => Ok (PyStr.join page_break (ocr_kept (loaded_prefix ps)))
       | Some e => Raise e
       end
  else Ok "".

Definition slen (s : string) : Z := Z.of_nat (String.length s).

End Pdf.

(* ------------------------------------------------------------------ *)
(** ** COM automation (Automation Resource Manager)

    The outcome of each COM call is fixed by a [com_env]; the state holds
    the effect trace and the Python locals [app] and [doc] that the
    [finally] blocks read (a bound COM object is truthy). *)

Module Com.

Record com_env := ComEnv {
  create : res unit;       (* CreateObject / gencache.EnsureDispatch *)
  set_visible : res unit;  (* app.Visible = False *)
  open_doc : res unit;     (* Presentations.Open / Documents.Open *)
  save_as : res unit;      (* doc.SaveAs(..., FileFormat=...) *)
  content : res string;    (* doc.Content.Text *)
  close : res unit;        (* doc.Close() *)
  quit : res unit;         (* app.Quit() *)
  mkdir : res unit         (* output_path.parent.mkdir(...) *)
}.

Inductive com_event :=
| EvCoInit | EvCoUninit | EvCreate | EvOpen | EvSave (fmt : nat) | EvRead
| EvCloseDoc | EvQuit.

Record com_state := ComState { trace : list com_event; app : bool; doc : bool }.

Definition init : com_state := ComState [] false false.

Definition CM := M com_state.

Definition log (e : com_event) : CM unit :=
  fun st => (Ok tt, ComState (List.app (trace st) [e]) (app st) (doc st)).
Definition set_app (b : bool) : CM unit :=
  fun st => (Ok tt, ComState (trace st) b (doc st)).
Definition set_doc (b : bool) : CM unit :=
  fun st => (Ok tt, ComState (trace st) (app st) b).
Definition get_app : CM bool := fun st => (Ok (app st), st).
Definition get_doc : CM bool := fun st => (Ok (doc st), st).

(** A COM call: record the attempt, then its outcome. *)
Definition call {A} (e : com_event) (r : res A) : CM A := log e ;;; lift r.

Definition swallow (m : CM unit) : CM unit := try_except m (fun _ => ret tt).

Inductive office_app := Powerpoint | Word.

Definition app_for (file_ext : string) : option office_app :=
  if String.eqb file_ext ".ppt" || String.eqb file_ext ".pptx" then Some Powerpoint
  else if String.eqb file_ext ".doc" || String.eqb file_ext ".docx" then Some Word
  else None.

Definition save_format (a : office_app) : nat :=
  match a with Powerpoint => 32 | Word => 17 end.

Definition unsupported (file_ext : string) : exn :=
  Exn "FileProcessingError" ("Unsupported file type for PDF conversion: " ++ file_ext).

(** backend/services/file_processor.py, [convert_to_pdf_com];
    [input_name] is [p_in.name] and [file_ext] is [p_in.suffix.lower()]. *)
Definition svc_convert_to_pdf_com (COMTYPES_AVAILABLE : bool) (env : com_env)
    (input_name file_ext : string) : CM unit :=
  if negb COMTYPES_AVAILABLE then raise (Exn "RuntimeError" "comtypes library not available.") else
  log EvCoInit ;;;
  try_finally
    (try_except
       (a <- match app_for file_ext with
             | Some a => ret a
             | None => raise (unsupported file_ext)
             end ;;
        call EvCreate (create env) ;;; set_app true ;;;
        call EvOpen (open_doc env) ;;; set_doc true ;;;
        call (EvSave (save_format a)) (save_as env))
       (fun e => raise (Exn "FileProcessingError" ("Failed to convert '" ++ input_name ++ "' via COM: " ++ exn_msg e))))
    (d <- get_doc ;; (if d then call EvCloseDoc (close env) else ret tt) ;;;
     a <- get_app ;; (if a then call EvQuit (quit env) else ret tt) ;;;
     log EvCoUninit).

(** backend/app/services/file_processor.py, [convert_to_pdf_com]: the
    extension check is outside the [try]; each release call is wrapped
    in its own [try: ... except Exception: pass].  [input_name] is
    [input_path.name] and [file_ext] is [input_path.suffix.lower()]. *)
Definition app_convert_to_pdf_com (COMTYPES_AVAILABLE PYWIN32_AVAILABLE : bool)
    (env : com_env) (input_name file_ext : string) : CM unit :=
  if negb COMTYPES_AVAILABLE || negb PYWIN32_AVAILABLE
  then raise (Exn "RuntimeError" "COM libraries (comtypes, pywin32) are not available for Office conversion.") else
  match app_for file_ext with
  | None => raise (unsupported file_ext)
  | Some a =>
      try_finally
        (try_except
           (lift (mkdir env) ;;;
            call EvCreate (create env) ;;; set_app true ;;;
            lift (set_visible env) ;;;
            call EvOpen (open_doc env) ;;; set_doc true ;;;
            call (EvSave (save_format a)) (save_as env))
           (fun e => raise (Exn "FileProcessingError"
                              ("Failed to convert '" ++ input_name ++ "' via COM interface. Reason: " ++ exn_msg e))))
        (d <- get_doc ;; (if d then swallow (call EvCloseDoc (close env)) else ret tt) ;;;
         a <- get_app ;; (if a then swallow (call EvQuit (quit env)) else ret tt) ;;;
         set_doc false ;;; set_app false)
  end.

(** backend/app/services/file_processor.py, [extract_text_from_doc];
    [input_name] is [input_path.name]. *)
Definition extract_text_from_doc (PYWIN32_AVAILABLE : bool) (env : com_env) (input_name : string) : CM string :=
  if negb PYWIN32_AVAILABLE
  then raise (Exn "RuntimeError" "`pywin32` is not installed, cannot process .doc files.") else
  try_finally
    (try_except
       (call EvCreate (create env) ;;; set_app true ;;;
        lift (set_visible env) ;;;
        call EvOpen (open_doc env) ;;; set_doc true ;;;
        call EvRead (content env))
       (fun e => raise (Exn "FileProcessingError" ("Could not extract text from DOC '" ++ input_name ++ "' via COM: " ++ exn_msg e))))
    (d <- get_doc ;; (if d then call EvCloseDoc (close env) else ret tt) ;;;
     a <- get_app ;; (if a then call EvQuit (quit env) else ret tt)).

(** backend/services/file_processor.py, [extract_text_smart], the [.doc]
    branch (no [except] clause).  When the [comtypes] import failed the
    name [comtypes] is unbound, and [comtypes.CoInitialize()] raises
    [NameError]. *)
Definition extract_text_smart_doc (PYWIN32_AVAILABLE COMTYPES_AVAILABLE : bool) (env : com_env) : CM string :=
  if negb PYWIN32_AVAILABLE then raise (Exn "RuntimeError" "pywin32 not installed.") else
  if negb COMTYPES_AVAILABLE then raise (Exn "NameError" "name 'comtypes' is not defined") else
  log EvCoInit ;;;
  try_finally
    (call EvCreate (create env) ;;; set_app true ;;;
     call EvOpen (open_doc env) ;;; set_doc true ;;;
     call EvRead (content env))
    (d <- get_doc ;; (if d then call EvCloseDoc (close env) else ret tt) ;;;
     a <- get_app ;; (if a then call EvQuit (quit env) else ret tt) ;;;
     log EvCoUninit).

(** An environment where every call succeeds except [doc.Close()]. *)
Definition com_err : exn := Exn "COMError" "The object invoked has disconnected from its clients.".
Definition env_close_fails : com_env :=
  ComEnv (Ok tt) (Ok tt) (Ok tt) (Ok tt) (Ok "text") (Raise com_err) (Ok tt) (Ok tt).

End Com.

(* ------------------------------------------------------------------ *)
(** ** JSON values, [json.loads] and [dict.get] *)

Module Json.

#[local] Unset Elimination Schemes.
Inductive json :=
| JNull
| JBool (b : bool)
| JNum (n : Z)
| JStr (s : string)
| JArr (l : list json)
| JObj (kvs : list (string * json)).
#[local] Set Elimination Schemes.

(** Python truthiness of the decoded value. *)
Definition truthy (j : json) : bool :=
  match j with
  | JNull => false
  | JBool b => b
  | JNum n => negb (Z.eqb n 0)
  | JStr s => PyStr.truthy s
  | JArr l => match l with [] => false | _ => true end
  | JObj kvs => match kvs with [] => false | _ => true end
  end.

(** Lookup in the dict [json.loads] builds: the last binding of a key wins. *)
Fixpoint lookup (kvs : list (string * json)) (k : string) : option json :=
  match kvs with
  | [] => None
  | (k', v) :: r => match lookup r k with
                    | Some w => Some w
                    | None => if String.eqb k k' then Some v else None
                    end
  end.

Definition attr_error (what : string) : exn :=
  Exn "AttributeError" ("'" ++ what ++ "' object has no attribute 'get'").

Definition type_name (j : json) : string :=
  match j with
  | JNull => "NoneType" | JBool _ => "bool" | JNum _ => "int" | JStr _ => "str"
  | JArr _ => "list" | JObj _ => "dict"
  end.

(** [j.get(k, default)]: only a dict has [.get]. *)
Definition dict_get (j : json) (k : string) (default : json) : res json :=
  match j with
  | JObj kvs => Ok (match lookup kvs k with Some v => v | None => default end)
  | _ => Raise (attr_error (type_name j))
  end.

(** [json.loads] on the part of JSON used by the examples below: null,
    booleans, integers, strings (escapes: quote, backslash, slash, n, t, r),
    arrays and objects. *)
Definition is_ws (c : ascii) : bool :=
  match c with " "%char | "009"%char | "010"%char | "013"%char => true | _ => false end.

Fixpoint skip_ws (l : list ascii) : list ascii :=
  match l with c :: r => if is_ws c then skip_ws r else l | [] => [] end.

Fixpoint parse_chars (l : list ascii) : option (list ascii * list ascii) :=
  match l with
  | [] => None
  | "034"%char :: r => Some ([], r)
  | "092"%char :: e :: r =>
      let c := match e with
               | "n"%char => Some "010"%char | "t"%char => Some "009"%char
               | "r"%char => Some "013"%char | "034"%char => Some e
               | "092"%char => Some e | "/"%char => Some e | _ => None end in
      match c, parse_chars r with
      | Some c, Some (cs, r') => Some (c :: cs, r')
      | _, _ => None
      end
  | c :: r => match parse_chars r with Some (cs, r') => Some (c :: cs, r') | None => None end
  end.

Definition digit (c : ascii) : option Z :=
  let n := nat_of_ascii c in if ((48 <=? n) && (n <=? 57))%nat then Some (Z.of_nat (n - 48)) else None.

Fixpoint parse_digits (acc : Z) (l : list ascii) : Z * list ascii :=
  match l with
  | c :: r => match digit c with Some d => parse_digits (acc * 10 + d)%Z r | None => (acc, l) end
  | [] => (acc, [])
  end.

Definition parse_nat (l : list ascii) : option (Z * list ascii) :=
  match l with
  | c :: r => match digit c with Some d => Some (parse_digits d r) | None => None end
  | [] => None
  end.

Fixpoint parse_value (fuel : nat) (l : list ascii) : option (json * list ascii) :=
  match fuel with
  | O => None
  | S f =>
    match skip_ws l with
    | "n"%char :: "u"%char :: "l"%char :: "l"%char :: r => Some (JNull, r)
    | "t"%char :: "r"%char :: "u"%char :: "e"%char :: r => Some (JBool true, r)
    | "f"%char :: "a"%char :: "l"%char :: "s"%char :: "e"%char :: r => Some (JBool false, r)
    | "034"%char :: r =>
        match parse_chars r with Some (cs, r') => Some (JStr (string_of_list_ascii cs), r') | None => None end
    | "-"%char :: r =>
        match parse_nat r with Some (n, r') => Some (JNum (- n)%Z, r') | None => None end
    | "["%char :: r =>
        match skip_ws r with
        | "]"%char :: r' => Some (JArr [], r')
        | _ =>
          (fix elems (g : nat) (l : list ascii) (acc : list json) :=
             match g with
             | O => None
             | S g' =>
               match parse_value f l with
               | Some (v, r1) =>
                   match skip_ws r1 with
                   | ","%char :: r2 => elems g' r2 (v :: acc)
                   | "]"%char :: r2 => Some (JArr (rev (v :: acc)), r2)
                   | _ => None
                   end
               | None => None
               end
             end) f r []
        end
    | "{"%char :: r =>
        match skip_ws r with
        | "}"%char :: r' => Some (JObj [], r')
        | _ =>
          (fix members (g : nat) (l : list ascii) (acc : list (string * json)) :=
             match g with
             | O => None
             | S g' =>
               match skip_ws l with
               | "034"%char :: l1 =>
                 match parse_chars l1 with
                 | Some (k, l2) =>
                   match skip_ws l2 with
                   | ":"%char :: l3 =>
                     match parse_value f l3 with
                     | Some (v, r1) =>
                         match skip_ws r1 with
                         | ","%char :: r2 => members g' r2 ((string_of_list_ascii k, v) :: acc)
                         | "}"%char :: r2 => Some (JObj (rev ((string_of_list_ascii k, v) :: acc)), r2)
                         | _ => None
                         end
                     | None => None
                     end
                   | _ => None
                   end
                 | None => None
                 end
               | _ => None
               end
             end) f r []
        end
    | l' => match parse_nat l' with Some (n, r') => Some (JNum n, r') | None => None end
    end
  end.

(** [None] is a [json.JSONDecodeError]. *)
Definition json_loads (s : string) : option json :=
  let l := list_ascii_of_string s in
  match parse_value (S (length l)) l with
  | Some (v, rest) => match skip_ws rest with [] => Some v | _ => None end
  | None => None
  end.

End Json.

(* ------------------------------------------------------------------ *)
(** ** [str.format] with keyword arguments

    Literal text is copied, [{{] and [}}] stand for braces, and a
    replacement field [{name:spec}] or [{name!conv}] is looked up by the
    part of [name] before the first [.] or [[]: a missing keyword raises
    [KeyError], an empty or numeric name indexes the (empty) positional
    arguments and raises [IndexError].  Fields are substituted as [str]
    values; format specifications are not interpreted. *)

Module PyFormat.

(** The text of a replacement field up to its matching [}]. *)
Fixpoint field_text (depth : nat) (l : list ascii) : option (list ascii * list ascii) :=
  match l with
  | [] => None
  | "}"%char :: r =>
      match depth with
      | O => Some ([], r)
      | S d => match field_text d r with Some (f, r') => Some ("}"%char :: f, r') | None => None end
      end
  | "{"%char :: r =>
      match field_text (S depth) r with Some (f, r') => Some ("{"%char :: f, r') | None => None end
  | c :: r => match field_text depth r with Some (f, r') => Some (c :: f, r') | None => None end
  end.

(** The field name: up to the first [:] or [!], skipping [[...]]. *)
Fixpoint field_name (l : list ascii) : list ascii :=
  match l with
  | [] => []
  | ":"%char :: _ | "!"%char :: _ => []
  | c :: r => c :: field_name r
  end.

(** Its first part: up to the first [.] or [[]. *)
Fixpoint first_part (l : list ascii) : list ascii :=
  match l with
  | [] => []
  | "."%char :: _ | "["%char :: _ => []
  | c :: r => c :: first_part r
  end.

Definition all_digits (l : list ascii) : bool :=
  forallb (fun c => match Json.digit c with Some _ => true | None => false end) l.

Fixpoint kw_lookup (kw : list (string * string)) (k : string) : option string :=
  match kw with
  | [] => None
  | (k', v) :: r => if String.eqb k k' then Some v else kw_lookup r k
  end.

Definition value_error (m : string) : exn := Exn "ValueError" m.

Fixpoint format_chars (fuel : nat) (kw : list (string * string)) (l : list ascii) : res (list ascii) :=
  match fuel with
  | O => Raise (value_error "format recursion")
  | S f =>
    match l with
    | [] => Ok []
    | "{"%char :: "{"%char :: r =>
        match format_chars f kw r with Ok o => Ok ("{"%char :: o) | Raise e => Raise e end
    | "}"%char :: "}"%char :: r =>
        match format_chars f kw r with Ok o => Ok ("}"%char :: o) | Raise e => Raise e end
    | "}"%char :: _ => Raise (value_error "Single '}' encountered in format string")
    | "{"%char :: r =>
        match field_text 0 r with
        | None => Raise (value_error "expected '}' before end of string")
        | Some (fld, r') =>
            let name := first_part (field_name fld) in
            if existsb (fun c => Ascii.eqb c "{"%char) (field_name fld)
            then Raise (value_error "unexpected '{' in field name") else
            if all_digits name
            then Raise (Exn "IndexError" "Replacement index 0 out of range for positional args tuple")
            else match kw_lookup kw (string_of_list_ascii name) with
                 | None => Raise (Exn "KeyError" ("'" ++ string_of_list_ascii name ++ "'"))
                 | Some v =>
                     match format_chars f kw r' with
                     | Ok o => Ok (List.app (list_ascii_of_string v) o)
                     | Raise e => Raise e
                     end
                 end
        end
    | c :: r => match format_chars f kw r with Ok o => Ok (c :: o) | Raise e => Raise e end
    end
  end.

Definition format (tmpl : string) (kw : list (string * string)) : res string :=
  let l := list_ascii_of_string tmpl in
  match format_chars (S (length l)) kw l with
  | Ok o => Ok (string_of_list_ascii o)
  | Raise e => Raise e
  end.

End PyFormat.

(* ------------------------------------------------------------------ *)
(** ** AI backends (backend/app/services/ai_service.py) *)

Module Ai.
Import Json.

Definition dq : string := String "034"%char EmptyString.

(** [LLMProvider._get_prompt_template()], verbatim. *)
Definition prompt_template : string :=
  "
        You are an expert-level document processing AI. Your task is to convert raw, potentially messy text extracted from a file into a clean, well-structured Markdown document. You must also identify and report any issues you encounter during the conversion.

        **CRITICAL INSTRUCTION: Your final output must be a single, valid JSON object. Do not output any text before or after the JSON object.**

        The JSON object must have the following structure:
        {
          " ++ dq ++
  "markdown_content" ++ dq ++
  ": " ++ dq ++
  "..." ++ dq ++
  ",
          " ++ dq ++
  "warnings" ++ dq ++
  ": []
        }

        **Field Explanations:**
        1.  `markdown_content` (string): This field must contain the fully converted, high-quality Markdown text.
        2.  `warnings` (array of strings): This field is for reporting problems. If you encounter any issues like complex tables you cannot convert, unrecoverable garbled text, or missing figures you have to describe, you MUST add a descriptive string for each issue into this array. If there are no issues, return an empty array `[]`.

        **Conversion Rules for `markdown_content`:**
        - **Headings:** Use `#`, `##`, `###` for titles and subtitles.
        - **Lists:** Convert numbered and bulleted lists to proper Markdown lists.
        - **Formatting:** Use `**bold**` and `*italics*` where appropriate.
        - **Formulas:** All mathematical formulas MUST be in LaTeX format. Inline formulas use `$E=mc^2$`, and block formulas use `$$...$$`.
        - **Code Blocks:** Use triple backticks (```) for code, specifying the language if possible.
        - **Tables:** Recreate simple tables using Markdown table syntax. For very complex tables, do not attempt to create them; instead, add a warning to the `warnings` array explaining the issue and describe the table's content in the text.
        - **Placeholders:** For fill-in-the-blanks, use `____`. For judgment questions, use `( )`.
        - **Readability:** Ensure proper spacing and newlines between paragraphs, questions, and sections.

        **Self-Correction:** Before finalizing your JSON output, review the `markdown_content`. Ensure all LaTeX is valid, lists are formatted correctly, and the structure is logical.

        ---
        **Document Context:**
        - Subject: " ++ dq ++
  "{subject}" ++ dq ++
  "
        - Original File Type: " ++ dq ++
  "{file_type}" ++ dq ++
  "

        **Raw Text Content to Process:**
        ---
        {text_content}
        ---

        Now, process the text and provide your response in the specified JSON format.
        ".

Definition ai_error (m : string) : exn := Exn "AIServiceError" m.

(** What [client.generate_content(...)] returns: whether [candidates] is
    non-empty, and [response.text] (which may raise). *)
Record gemini_response := GeminiResponse { candidates : bool; response_text : res string }.

(** The installed SDKs and the outcome of each service call, by prompt. *)
Record llm_env := LlmEnv {
  GEMINI_AVAILABLE : bool;
  OPENAI_AVAILABLE : bool;
  generate_content : string -> res gemini_response;
  chat_completions_create : string -> res unit
}.

Inductive provider := GeminiProvider (model_name : string) | OpenAIProvider (model_name : string).

Definition lower (s : string) : string :=
  string_of_list_ascii (map (fun c => let n := nat_of_ascii c in
                                      if ((65 <=? n) && (n <=? 90))%nat then ascii_of_nat (n + 32) else c)
                            (list_ascii_of_string s)).

Definition upper (s : string) : string :=
  string_of_list_ascii (map (fun c => let n := nat_of_ascii c in
                                      if ((97 <=? n) && (n <=? 122))%nat then ascii_of_nat (n - 32) else c)
                            (list_ascii_of_string s)).

(** [get_ai_provider] with the [LLMProvider.__init__] and
    [_initialize_client] checks. *)
Definition get_ai_provider (le : llm_env) (provider_name model_name api_key : string) : res provider :=
  let n := lower provider_name in
  let init (p : provider) (available : bool) (missing : string) :=
    if negb (PyStr.truthy api_key) then Raise (Exn "ValueError" "API key must be provided.")
    else if negb available then Raise (Exn "RuntimeError" missing)
    else Ok p in
  if String.eqb n "gemini"
  then init (GeminiProvider model_name) (GEMINI_AVAILABLE le)
            "Gemini SDK not installed. Please run 'pip install google-generativeai'."
  else if String.eqb n "openai"
  then init (OpenAIProvider model_name) (OPENAI_AVAILABLE le)
            "OpenAI SDK not installed. Please run 'pip install openai'."
  else Raise (Exn "ValueError" ("Unsupported AI provider: '" ++ n ++ "'")).

(** The [try] block of [GeminiProvider.generate_structured_markdown]:
    every exception, including the decode error, leaves as
    [AIServiceError]. *)
Definition gemini_handle_response (loads : string -> option json) (call : res gemini_response) : res json :=
  match call with
  | Raise e => Raise (ai_error (exn_msg e))
  | Ok r =>
      if negb (candidates r) then Raise (ai_error "Gemini API returned no candidates.") else
      match response_text r with
      | Raise e => Raise (ai_error (exn_msg e))
      | Ok t => match loads t with
                | None => Raise (ai_error "AI returned an invalid JSON object.")
                | Some j => Ok j
                end
      end
  end.

Definition prompt_args (text_content subject file_type : string) : list (string * string) :=
  [("subject", subject); ("file_type", file_type); ("text_content", text_content)].

(** [generate_structured_markdown] of both providers: the prompt is
    formatted before the [try]. *)
Definition generate_structured_markdown (le : llm_env) (loads : string -> option json)
    (p : provider) (text_content subject file_type : string) : res json :=
  match PyFormat.format prompt_template (prompt_args text_content subject file_type) with
  | Raise e => Raise e
  | Ok prompt =>
      match p with
      | GeminiProvider _ => gemini_handle_response loads (generate_content le prompt)
      | OpenAIProvider _ =>
          match chat_completions_create le prompt with
          | Raise e => Raise (ai_error (exn_msg e))
          | Ok _ => Raise (ai_error "'list' object has no attribute 'message'")
          end
      end
  end.

(** [get_ai_provider(...)] followed by [generate_structured_markdown(...)]. *)
Definition ai_generate (le : llm_env) (loads : string -> option json)
    (provider_name model_name api_key text_content subject file_type : string) : res json :=
  match get_ai_provider le provider_name model_name api_key with
  | Raise e => Raise e
  | Ok p => generate_structured_markdown le loads p text_content subject file_type
  end.

End Ai.

(* ------------------------------------------------------------------ *)
(** ** Conversion tasks (Conversion Executor)

    backend/app/tasks/{ai_conversions,non_ai_conversions}.py and the
    tasks of the same Celery names in backend/worker.py.  The state is
    the file system, a map from path to the text a reader gets back. *)

Module Tasks.
Import Json.

Definition fs := list (string * string).
Definition TM := M fs.

Fixpoint fs_lookup (f : fs) (p : string) : option string :=
  match f with
  | [] => None
  | (p', c) :: r => if String.eqb p p' then Some c else fs_lookup r p
  end.

Definition fs_write (p c : string) (f : fs) : fs :=
  (p, c) :: filter (fun kv => negb (String.eqb (fst kv) p)) f.

(** What [f.write(s)] stores for a file opened in text mode with
    [newline=None]: every \n becomes [os.linesep] (then UTF-8 encoded,
    the identity on the ASCII text modelled here). *)
Fixpoint translate_newlines (linesep s : string) : string :=
  match s with
  | EmptyString => EmptyString
  | String c r =>
      if Ascii.eqb c "010"%char then linesep ++ translate_newlines linesep r
      else String c (translate_newlines linesep r)
  end.

(** [Path(p).suffix] for a [/]-separated path. *)
Fixpoint last_dot (i : nat) (l : list ascii) : option nat :=
  match l with
  | [] => None
  | c :: r => match last_dot (S i) r with
              | Some j => Some j
              | None => if Ascii.eqb c "."%char then Some i else None
              end
  end.

Fixpoint upto_slash (l : list ascii) : list ascii :=
  match l with
  | [] => []
  | c :: r => if Ascii.eqb c "/"%char then [] else c :: upto_slash r
  end.

(** [Path(p).name]. *)
Definition path_name (p : string) : list ascii :=
  rev (upto_slash (rev (list_ascii_of_string p))).

Definition path_suffix (p : string) : string :=
  let name := path_name p in
  match last_dot 0 name with
  | Some i => if ((0 <? i) && (i <? length name - 1))%nat
              then string_of_list_ascii (skipn i name) else ""
  | None => ""
  end.

(** The services a task calls, as the task module imports them. *)
Record services := Services {
  extract_text_from_doc : string -> TM string;
  extract_text_from_docx : string -> TM string;
  extract_text_from_pdf : string -> TM string;
  extract_text_smart : string -> TM string;
  convert_to_pdf_com : string -> string -> TM unit;
  (** [get_ai_provider(provider, model, key).generate_structured_markdown(text, subject, file_type)] *)
  ai_generate : string -> string -> string -> string -> string -> string -> TM json;
  (** [getattr(settings, name, None)] *)
  settings_attr : string -> option string;
  mkdir_parents : string -> res unit;
  open_for_write : string -> res unit;
  linesep : string
}.

(** The dict a task returns. *)
Inductive task_result :=
| Success (message output_path : string) (warnings : option json)
| Failed (message : string).

Definition value_error (m : string) : exn := Exn "ValueError" m.

(** [with open(path, "w", encoding="utf-8") as f: f.write(content)]:
    opening truncates the file; writing a non-[str] raises [TypeError]. *)
Definition write_output (sv : services) (path : string) (content : json) : TM unit :=
  fun f => match open_for_write sv path with
           | Raise e => (Raise e, f)
           | Ok _ =>
               let f1 := fs_write path "" f in
               match content with
               | JStr s => (Ok tt, fs_write path (translate_newlines (linesep sv) s) f1)
               | _ => (Raise (Exn "TypeError" ("write() argument must be str, not " ++ type_name content)), f1)
               end
           end.

(** Step 1 of [ai_conversion_task]: the extractor chosen by suffix. *)
Definition extract_by_suffix (sv : services) (file_suffix input_path : string) : TM string :=
  if String.eqb file_suffix ".doc" then extract_text_from_doc sv input_path
  else if String.eqb file_suffix ".docx" then extract_text_from_docx sv input_path
  else if String.eqb file_suffix ".pdf" then extract_text_from_pdf sv input_path
  else raise (value_error ("Unsupported file type for AI conversion: " ++ file_suffix)).

(** [model_name or getattr(settings, PROVIDER_MODEL_NAME, None)]. *)
Definition resolve_model (sv : services) (provider_name : string) (model_name : option string) : res string :=
  let default :=
    match settings_attr sv (Ai.upper provider_name ++ "_MODEL_NAME") with
    | Some m => if PyStr.truthy m then Ok m
                else Raise (value_error ("No default model name configured for provider '" ++ provider_name ++ "'."))
    | None => Raise (value_error ("No default model name configured for provider '" ++ provider_name ++ "'."))
    end in
  match model_name with
  | Some m => if PyStr.truthy m then Ok m else default
  | None => default
  end.

(** Step 1 of [ai_conversion_task]: extract the text, refuse empty text. *)
Definition app_extract_step (sv : services) (file_suffix input_path : string) : TM string :=
  text_content <- extract_by_suffix sv file_suffix input_path ;;
  if negb (PyStr.truthy text_content) || negb (PyStr.truthy (PyStr.strip text_content))
  then raise (value_error "Extracted text is empty. Cannot proceed with AI conversion.")
  else ret text_content.

(** Step 2: choose the model, call the AI provider. *)
Definition app_ai_step (sv : services) (provider_name : string) (model_name : option string)
    (api_key text_content subject file_suffix : string) : TM json :=
  model <- lift (resolve_model sv provider_name model_name) ;;
  ai_generate sv provider_name model api_key text_content subject (Ai.upper file_suffix).

(** Steps 3 and 4: save the Markdown, build the result. *)
Definition app_save_step (sv : services) (output_path : string) (structured_result : json) : TM task_result :=
  markdown_content <- lift (dict_get structured_result "markdown_content" JNull) ;;
  (if negb (Json.truthy markdown_content)
   then raise (value_error "AI returned an empty markdown content.") else ret tt) ;;;
  lift (mkdir_parents sv output_path) ;;;
  write_output sv output_path markdown_content ;;;
  warnings <- lift (dict_get structured_result "warnings" (JArr [])) ;;
  ret (Success "File converted successfully using AI." output_path (Some warnings)).

(** The [try] body of backend/app/tasks/ai_conversions.py [ai_conversion_task]. *)
Definition app_ai_conversion_body (sv : services) (input_path output_path subject api_key provider_name : string)
    (model_name : option string) : TM task_result :=
  let file_suffix := Ai.lower (path_suffix input_path) in
  text_content <- app_extract_step sv file_suffix input_path ;;
  structured_result <- app_ai_step sv provider_name model_name api_key text_content subject file_suffix ;;
  app_save_step sv output_path structured_result.

(** backend/app/tasks/ai_conversions.py, [ai_conversion_task]. *)
Definition app_ai_conversion_task (sv : services) (input_path output_path subject api_key provider_name : string)
    (model_name : option string) : TM task_result :=
  try_except (app_ai_conversion_body sv input_path output_path subject api_key provider_name model_name)
             (fun e => ret (Failed ("An error occurred during AI conversion: " ++ exn_msg e))).

(** backend/app/tasks/non_ai_conversions.py, [ppt_to_pdf_task]. *)
Definition app_ppt_to_pdf_task (sv : services) (input_path output_path : string) : TM task_result :=
  try_except (convert_to_pdf_com sv input_path output_path ;;;
              ret (Success "File converted successfully." output_path None))
             (fun e => ret (Failed ("An error occurred: " ++ exn_msg e))).

(** The save part of backend/worker.py [ai_conversion_task]. *)
Definition worker_save_step (sv : services) (output_path : string) (structured_result : json) : TM task_result :=
  markdown_content <- lift (dict_get structured_result "markdown_content" (JStr "")) ;;
  (if negb (Json.truthy markdown_content)
   then raise (value_error "AI did not return any markdown content.") else ret tt) ;;;
  write_output sv output_path markdown_content ;;;
  warnings <- lift (dict_get structured_result "warnings" (JArr [])) ;;
  ret (Success "AI conversion successful." output_path (Some warnings)).

(** The [try] body of backend/worker.py [ai_conversion_task]. *)
Definition worker_ai_conversion_body (sv : services)
    (input_path output_path subject provider_name api_key model_name : string) : TM task_result :=
  text_content <- extract_text_smart sv input_path ;;
  (if negb (PyStr.truthy text_content) then raise (value_error "Extracted text is empty.") else ret tt) ;;;
  structured_result <- ai_generate sv provider_name model_name api_key text_content subject (path_suffix input_path) ;;
  worker_save_step sv output_path structured_result.

(** backend/worker.py, [ai_conversion_task]: logs and re-raises. *)
Definition worker_ai_conversion_task (sv : services)
    (input_path output_path subject provider_name api_key model_name : string) : TM task_result :=
  try_except (worker_ai_conversion_body sv input_path output_path subject provider_name api_key model_name)
             (fun e => raise e).

(** backend/worker.py, [ppt_to_pdf_task]: logs and re-raises. *)
Definition worker_ppt_to_pdf_task (sv : services) (input_path output_path : string) : TM task_result :=
  try_except (convert_to_pdf_com sv input_path output_path ;;;
              ret (Success "File converted to PDF successfully." output_path None))
             (fun e => raise e).

(** Services for concrete runs: extraction yields [text], the AI backend
    returns [reply], directories and files can be created. *)
Definition sv_with (text : string) (reply : res json) (linesep : string) : services :=
  Services (fun _ => ret text) (fun _ => ret text) (fun _ => ret text) (fun _ => ret text)
           (fun _ _ => ret tt) (fun _ _ _ _ _ _ => lift reply)
           (fun _ => None) (fun _ => Ok tt) (fun _ => Ok tt) linesep.

Definition crlf : string := String "013"%char PyStr.nl.

(** Services whose every call raises [e]. *)
Definition sv_failing (e : exn) : services :=
  Services (fun _ => raise e) (fun _ => raise e) (fun _ => raise e) (fun _ => raise e)
           (fun _ _ => raise e) (fun _ _ _ _ _ _ => raise e)
           (fun _ => None) (fun _ => Raise e) (fun _ => Raise e) PyStr.nl.

End Tasks.

(* ------------------------------------------------------------------ *)
(** ** Upload handlers: backend/app.py (Flask) and backend/main.py

    The state records the directories created, the files written and
    the Celery tasks dispatched (name and arguments).  [req_id] and the
    Celery task id are the UUIDs the handlers draw. *)
Module Upload.
Import Tasks.

Record upload_state := UploadState {
  dirs : list string;
  files : list string;
  sent : list (string * list string)
}.

Definition UM := M upload_state.

Definition empty_state : upload_state := UploadState [] [] [].

(** What a handler answers: a JSON reply with its HTTP code, or
    [TaskCreated] (202). *)
Inductive response :=
| Reply (code : nat) (status message : string)
| Accepted (task_id : string).

(** [HTTPException(code, detail)]; [str()] of it is [code: detail]. *)
Definition http_exception (code detail : string) : exn := Exn "HTTPException" (code ++ ": " ++ detail).

(** [p.mkdir(parents=True, exist_ok=True)]. *)
Definition mkdir_exist_ok (p : string) : UM unit :=
  fun s => (Ok tt, if existsb (String.eqb p) (dirs s) then s
                   else UploadState (p :: dirs s) (files s) (sent s)).

(** [p.mkdir()]: raises if [p] exists. *)
Definition mkdir_new (p : string) : UM unit :=
  fun s => if existsb (String.eqb p) (dirs s)
           then (Raise (Exn "FileExistsError" ("[Errno 17] File exists: '" ++ p ++ "'")), s)
           else (Ok tt, UploadState (p :: dirs s) (files s) (sent s)).

(** Writing the uploaded bytes to [p]. *)
Definition save_file (p : string) : UM unit :=
  fun s => (Ok tt, UploadState (dirs s) (p :: files s) (sent s)).

(** [celery_producer.send_task(name, args=args)]. *)
Definition send_task (name : string) (args : list string) : UM unit :=
  fun s => (Ok tt, UploadState (dirs s) (files s) ((name, args) :: sent s)).

(** Python's [sub in s] on strings. *)
Fixpoint str_contains (sub s : string) : bool :=
  String.prefix sub s ||
  match s with
  | EmptyString => false
  | String _ r => str_contains sub r
  end.

(** [Path(p).stem]. *)
Definition path_stem (p : string) : string :=
  let name := string_of_list_ascii (path_name p) in
  substring 0 (String.length name - String.length (path_suffix p)) name.

(** backend/app.py [TASK_TO_EXTENSIONS.get(task_type)]. *)
Definition TASK_TO_EXTENSIONS (task_type : string) : option (list string) :=
  if String.eqb task_type "ppt_to_pdf" then Some [".ppt"; ".pptx"]
  else if String.eqb task_type "doc_to_markdown_ai" then Some [".doc"; ".docx"]
  else if String.eqb task_type "pdf_to_markdown_ai" then Some [".pdf"]
  else if String.eqb task_type "doc_to_markdown_simple" then Some [".doc"; ".docx"]
  else None.

(** [allowed_extensions] after the fallback for old task names. *)
Definition allowed_extensions (task_type : string) : option (list string) :=
  match TASK_TO_EXTENSIONS task_type with
  | Some (_ :: _) as a => a
  | a => if str_contains "doc_to_markdown" task_type then Some [".doc"; ".docx"] else a
  end.

(** [not allowed_extensions or original_ext not in allowed_extensions]. *)
Definition ext_rejected (task_type original_ext : string) : bool :=
  match allowed_extensions task_type with
  | Some l => negb (existsb (String.eqb original_ext) l)
  | None => true
  end.

(** backend/app.py, [upload_and_process].  [has_file] is
    ['file' in request.files]; an empty [task_type] stands for a missing
    one; [run_conversion task_type input_path output_path_base] is the
    [try] block that runs after the upload has been saved. *)
Definition upload_and_process (secure_filename : string -> string) (req_id : string)
    (run_conversion : string -> string -> string -> UM response)
    (has_file : bool) (filename task_type : string) : UM response :=
  if negb has_file then ret (Reply 400 "error" "No file part in the request.") else
  if String.eqb filename "" || negb (PyStr.truthy task_type)
  then ret (Reply 400 "error" "No file selected or task type specified.") else
  let original_stem := path_stem filename in
  let original_ext := Ai.lower (path_suffix filename) in
  if ext_rejected task_type original_ext
  then ret (Reply 400 "error" ("File type mismatch: Task '" ++ task_type ++ "' doesn't support '"
                               ++ original_ext ++ "' files."))
  else
  let safe_stem := PyStr.or_str (secure_filename original_stem) "file" in
  let fname := safe_stem ++ original_ext in
  let input_path := "temp_files/" ++ req_id ++ "/" ++ fname in
  let output_path_base := "output_files/" ++ req_id in
  mkdir_exist_ok ("temp_files/" ++ req_id) ;;;
  mkdir_exist_ok output_path_base ;;;
  save_file input_path ;;;
  run_conversion task_type input_path output_path_base.

(** backend/main.py, [upload_and_dispatch].  [file] is the uploaded
    file's name ([None] when the form has no file), [config] the
    [.env] values. *)
Definition upload_and_dispatch (config : string -> option string) (req_id task_id : string)
    (file : option string) (task_type : string) (subject : option string) : UM response :=
  match file with
  | None => raise (http_exception "422" "Missing 'file' or 'task_type'.")
  | Some filename =>
  if negb (PyStr.truthy task_type) then raise (http_exception "422" "Missing 'file' or 'task_type'.") else
  let input_path := "temp_files/" ++ req_id ++ "/" ++ filename in
  mkdir_new ("temp_files/" ++ req_id) ;;;
  save_file input_path ;;;
  let output_path_base := "output_files/" ++ req_id in
  mkdir_new output_path_base ;;;
  let provider_name := match config "AI_PROVIDER" with Some p => p | None => "gemini" end in
  task <- (if String.eqb task_type "ppt_to_pdf"
           then ret ("tasks.ppt_to_pdf", [input_path; output_path_base ++ "/" ++ path_stem input_path ++ ".pdf"])
           else if existsb (String.eqb task_type) ["doc_to_markdown"; "docx_to_markdown"; "pdf_to_markdown"]
           then match config (Ai.upper provider_name ++ "_API_KEY"), config (Ai.upper provider_name ++ "_MODEL_NAME") with
                | Some api_key, Some model_name =>
                    if PyStr.truthy api_key && PyStr.truthy model_name
                    then ret ("tasks.ai_conversion",
                              [input_path; output_path_base ++ "/" ++ path_stem input_path ++ ".md";
                               match subject with Some x => x | None => "General" end;
                               provider_name; api_key; model_name])
                    else raise (http_exception "400" "AI Provider not configured in .env")
                | _, _ => raise (http_exception "400" "AI Provider not configured in .env")
                end
           else raise (http_exception "400" "Unknown task type.")) ;;
  send_task (fst task) (snd task) ;;;
  ret (Accepted task_id)
  end.

End Upload.

(* ------------------------------------------------------------------ *)
(** ** Task status: the in-memory router and the Celery-backed endpoint *)
Module Status.
Import Json.

(** A Celery result-backend entry. *)
Inductive celery_state :=
| PENDING | STARTED | RETRY | REVOKED
| SUCCESS (result : json)
| FAILURE (info : string).

Definition celery_backend := list (string * celery_state).

Fixpoint assoc {A} (l : list (string * A)) (k : string) : option A :=
  match l with
  | [] => None
  | (k', v) :: r => if String.eqb k k' then Some v else assoc r k
  end.

(** [AsyncResult(task_id)]: Celery keeps no record of ids it was never
    given and reports them as [PENDING]. *)
Definition async_result (b : celery_backend) (task_id : string) : celery_state :=
  match assoc b task_id with Some st => st | None => PENDING end.

Definition state_name (st : celery_state) : string :=
  match st with
  | PENDING => "PENDING" | STARTED => "STARTED" | RETRY => "RETRY" | REVOKED => "REVOKED"
  | SUCCESS _ => "SUCCESS" | FAILURE _ => "FAILURE"
  end.

Record task_status_response := TaskStatusResponse {
  id : string;
  status : string;
  result : option json
}.

(** [TaskStatusResponse(...)]: [status] is a [Literal]. *)
Definition make_response (task_id st : string) (r : option json) : res task_status_response :=
  if existsb (String.eqb st) ["pending"; "in_progress"; "success"; "failed"]
  then Ok (TaskStatusResponse task_id st r)
  else Raise (Exn "ValidationError" ("Input should be 'pending', 'in_progress', 'success' or 'failed'")).

Definition rbind {A B} (r : res A) (k : A -> res B) : res B :=
  match r with Ok a => k a | Raise e => Raise e end.

(** backend/app/main.py, [get_task_status]. *)
Definition app_get_task_status (b : celery_backend) (task_id : string) : res task_status_response :=
  let st := async_result b task_id in
  let status := Ai.lower (state_name st) in
  match st with
  | SUCCESS task_output =>
      rbind (dict_get task_output "output_path" (JStr "")) (fun op =>
      match op with
      | JStr output_path =>
          rbind (dict_get task_output "message" JNull) (fun message =>
          rbind (dict_get task_output "warnings" (JArr [])) (fun warnings =>
          make_response task_id "success"
            (Some (JObj [("output_file_url",
                          JStr ("/downloads/" ++ task_id ++ "/" ++ string_of_list_ascii (Tasks.path_name output_path)));
                         ("message", message); ("warnings", warnings)]))))
      | _ => Raise (Exn "TypeError" ("expected str, bytes or os.PathLike object, not " ++ type_name op))
      end)
  | FAILURE info => make_response task_id "failed" (Some (JObj [("error_message", JStr info)]))
  | _ =>
      if existsb (String.eqb status) ["pending"; "started"; "retry"]
      then make_response task_id "in_progress" None
      else make_response task_id status None
  end.

Fixpoint after_slash (l : list ascii) : list ascii :=
  match l with
  | [] => []
  | c :: r => if Ascii.eqb c "/"%char then r else after_slash r
  end.

(** [Path(p).parent.name], read like [Tasks.path_name]. *)
Definition path_parent_name (p : string) : string :=
  string_of_list_ascii (rev (Tasks.upto_slash (after_slash (rev (list_ascii_of_string p))))).

(** [k in j] on a decoded JSON value. *)
Definition py_contains (j : json) (k : string) : res bool :=
  match j with
  | JObj kvs => Ok (match lookup kvs k with Some _ => true | None => false end)
  | JStr s => Ok (match String.index 0 k s with Some _ => true | None => false end)
  | JArr l => Ok (existsb (fun x => match x with JStr s => String.eqb s k | _ => false end) l)
  | _ => Raise (Exn "TypeError" ("argument of type '" ++ type_name j ++ "' is not iterable"))
  end.

(** [j[k]] with a string key. *)
Definition py_getitem (j : json) (k : string) : res json :=
  match j with
  | JObj kvs => match lookup kvs k with
                | Some v => Ok v
                | None => Raise (Exn "KeyError" ("'" ++ k ++ "'"))
                end
  | JStr _ => Raise (Exn "TypeError" "string indices must be integers, not 'str'")
  | JArr _ => Raise (Exn "TypeError" "list indices must be integers or slices, not str")
  | _ => Raise (Exn "TypeError" ("'" ++ type_name j ++ "' object is not subscriptable"))
  end.

(** backend/main.py, [get_status], the [task.successful()] branch: the
    task's result, with [output_file_url] added when it names an
    [output_path] (a dict assignment; [lookup] reads the last binding). *)
Definition main_success_result (r : json) : res json :=
  if truthy r then
    rbind (py_contains r "output_path") (fun has =>
    if has then
      rbind (py_getitem r "output_path") (fun v =>
      match v with
      | JStr p =>
          let url := JStr ("/api/v1/downloads/" ++ path_parent_name p ++ "/"
                           ++ string_of_list_ascii (Tasks.path_name p)) in
          match r with
          | JObj kvs => Ok (JObj (kvs ++ [("output_file_url", url)]))
          | _ => Ok r
          end
      | _ => Raise (Exn "TypeError" ("expected str, bytes or os.PathLike object, not " ++ type_name v))
      end)
    else Ok r)
  else Ok r.

Definition validation_error (msg : string) : exn := Exn "ValidationError" msg.

Definition opt_str_field (v : option json) : res json :=
  match v with
  | None | Some JNull => Ok JNull
  | Some (JStr s) => Ok (JStr s)
  | Some _ => Raise (validation_error "Input should be a valid string")
  end.

Definition is_jstr (j : json) : bool := match j with JStr _ => true | _ => false end.

Definition opt_str_list_field (v : option json) : res json :=
  match v with
  | None | Some JNull => Ok JNull
  | Some (JArr l) => if forallb is_jstr l then Ok (JArr l)
                     else Raise (validation_error "Input should be a valid string")
  | Some _ => Raise (validation_error "Input should be a valid list")
  end.

(** backend/schemas/task.py: the [result] field, an
    [Optional[TaskStatusResult]]; the four fields default to [None] and
    other keys are dropped. *)
Definition validate_status_result (r : json) : res (option json) :=
  match r with
  | JNull => Ok None
  | JObj kvs =>
      rbind (opt_str_field (lookup kvs "output_file_url")) (fun u =>
      rbind (opt_str_field (lookup kvs "message")) (fun m =>
      rbind (opt_str_list_field (lookup kvs "warnings")) (fun w =>
      rbind (opt_str_field (lookup kvs "error_message")) (fun e =>
      Ok (Some (JObj [("output_file_url", u); ("message", m); ("warnings", w); ("error_message", e)]))))))
  | _ => Raise (validation_error "Input should be a valid dictionary or instance of TaskStatusResult")
  end.

(** backend/main.py, [get_status], with the response checked against
    [TaskStatusResponse]: other states keep Celery's upper-case
    [task.status]. *)
Definition main_get_status (b : celery_backend) (task_id : string) : res task_status_response :=
  let st := async_result b task_id in
  match st with
  | SUCCESS r =>
      rbind (main_success_result r) (fun r' =>
      rbind (validate_status_result r') (fun v => make_response task_id "success" v))
  | FAILURE info =>
      rbind (validate_status_result (JObj [("error_message", JStr info)])) (fun v =>
      make_response task_id "failed" v)
  | _ => make_response task_id (state_name st) None
  end.

(** The [result] that [get_status] answers for a failed task, once
    validated as a [TaskStatusResult]. *)
Definition failed_status_result (msg : string) : json :=
  JObj [("output_file_url", JNull); ("message", JNull); ("warnings", JNull);
        ("error_message", JStr msg)].

(** backend/app/api/v1/endpoints/conversion_tasks.py: [tasks_db] and
    [get_task_status]. *)
Definition tasks_db := list (string * task_status_response).

Definition router_get_task_status (db : tasks_db) (task_id : string) : res task_status_response :=
  match assoc db task_id with
  | Some task => Ok task
  | None => Raise (Exn "HTTPException" "404: Task not found")
  end.

End Status.

(* ------------------------------------------------------------------ *)
(** ** The .docx readers *)
Module Docx.

(** A .docx file: [DocxDocument(path)] raises, or yields the texts of
    its paragraphs. *)
Inductive docx_file :=
| DocxUnreadable (e : exn)
| DocxParagraphs (paragraphs : list string).

(** ["\n\n".join(p.text for p in doc.paragraphs if p.text)]. *)
Definition join_paragraphs (ps : list string) : string :=
  PyStr.join (PyStr.nl ++ PyStr.nl) (filter PyStr.truthy ps).

(** backend/app/services/file_processor.py, [extract_text_from_docx];
    [input_name] is [input_path.name]. *)
Definition extract_text_from_docx (PYTHON_DOCX_AVAILABLE : bool) (input_name : string) (f : docx_file) : res string :=
  if negb PYTHON_DOCX_AVAILABLE
  then Raise (Exn "RuntimeError" "`python-docx` is not installed, cannot process .docx files.") else
  match f with
  | DocxUnreadable e => Raise (Exn "FileProcessingError" ("Could not extract text from DOCX '" ++ input_name ++ "': " ++ exn_msg e))
  | DocxParagraphs ps => Ok (join_paragraphs ps)
  end.

End Docx.

(* ------------------------------------------------------------------ *)
(** ** backend/services/file_processor.py, [extract_text_smart]

    The three branches act on the PDF trace or on the COM state; the
    combined state holds both. *)
Module Smart.
Import Tasks Docx.

Definition smart_state := (list Pdf.event * Com.com_state)%type.
Definition SM := M smart_state.

Definition on_pdf {A} (m : Pdf.PM A) : SM A :=
  fun s => let (r, tr) := m (fst s) in (r, (tr, snd s)).

Definition on_com {A} (m : Com.CM A) : SM A :=
  fun s => let (r, cs) := m (snd s) in (r, (fst s, cs)).

(** [docx], [env] and [pdf] are what the file at [input_path] is to
    python-docx, to Word and to PyMuPDF. *)
Definition extract_text_smart (PYTHON_DOCX_AVAILABLE PYWIN32_AVAILABLE COMTYPES_AVAILABLE PYMUPDF_AVAILABLE OCR_AVAILABLE : bool)
    (docx : docx_file) (env : Com.com_env) (pdf : Pdf.pdf_file) (input_path : string) : SM string :=
  let file_ext := Ai.lower (path_suffix input_path) in
  if String.eqb file_ext ".docx" then
    if negb PYTHON_DOCX_AVAILABLE then raise (Exn "RuntimeError" "python-docx not installed.") else
    match docx with
    | DocxUnreadable e => raise e
    | DocxParagraphs ps => ret (join_paragraphs ps)
    end
  else if String.eqb file_ext ".doc" then on_com (Com.extract_text_smart_doc PYWIN32_AVAILABLE COMTYPES_AVAILABLE env)
  else if String.eqb file_ext ".pdf" then on_pdf (Pdf.extract_text_smart_pdf PYMUPDF_AVAILABLE OCR_AVAILABLE pdf)
  else raise (Exn "FileProcessingError" ("Unsupported file type for text extraction: " ++ file_ext)).

End Smart.

(* ------------------------------------------------------------------ *)
(** ** backend/services/ai_service.py (the worker's AI service) *)
Module SvcAi.
Import Json.

(** [LLMProvider._get_prompt_template()], verbatim. *)
Definition prompt_template : string :=
  "
        You are an expert document processing AI. Your task is to convert raw, potentially messy text from a file into a clean, well-structured Markdown document.

        **CRITICAL INSTRUCTION: Your final output must be a single, valid JSON object with the following structure:**
        {
          " ++ Ai.dq ++
  "markdown_content" ++ Ai.dq ++
  ": " ++ Ai.dq ++
  "..." ++ Ai.dq ++
  ",
          " ++ Ai.dq ++
  "warnings" ++ Ai.dq ++
  ": []
        }

        **Field Explanations:**
        1.  `markdown_content` (string): The fully converted, high-quality Markdown text.
        2.  `warnings` (array of strings): Report any issues encountered during conversion (e.g., complex tables, unrecoverable garbled text). If no issues, return an empty array `[]`.

        **Conversion Rules:**
        - **Headings & Formatting:** Use `#`, `##`, `**bold**`, etc.
        - **Formulas:** All mathematical formulas MUST be in LaTeX format (`$inline$`, `$$block$$`).
        - **Tables:** Recreate simple tables. For complex tables, add a warning and describe the table in the text.

        ---
        **Document Context:**
        - Subject: " ++ Ai.dq ++
  "{subject}" ++ Ai.dq ++
  "
        - Original File Type: " ++ Ai.dq ++
  "{file_type}" ++ Ai.dq ++
  "

        **Raw Text Content to Process:**
        ---
        {text_content}
        ---
        Now, process the text and provide your response in the specified JSON format.
        ".

Definition ai_error (m : string) : exn := Exn "AIServiceError" m.

(** The installed SDKs; [response.text] of Gemini and
    [response.choices[0].message.content] of OpenAI, by prompt. *)
Record llm_env := LlmEnv {
  GEMINI_AVAILABLE : bool;
  OPENAI_AVAILABLE : bool;
  generate_content : string -> res string;
  chat_completions_create : string -> res string
}.

(** [get_ai_provider] with [LLMProvider.__init__] and
    [_initialize_client]. *)
Definition get_ai_provider (le : llm_env) (provider_name model_name api_key : string) : res Ai.provider :=
  let init (p : Ai.provider) (available : bool) (sdk : string) :=
    if negb (PyStr.truthy api_key) then Raise (Exn "ValueError" "API key must be provided.")
    else if negb available then Raise (Exn "RuntimeError" (sdk ++ " SDK not installed."))
    else Ok p in
  let n := Ai.lower provider_name in
  if String.eqb n "gemini" then init (Ai.GeminiProvider model_name) (GEMINI_AVAILABLE le) "Gemini"
  else if String.eqb n "openai" then init (Ai.OpenAIProvider model_name) (OPENAI_AVAILABLE le) "OpenAI"
  else Raise (Exn "ValueError" ("Unsupported AI provider: '" ++ provider_name ++ "'")).

(** [generate_structured_markdown] of both providers; [loads] is
    [json.loads], its error carrying [str(e)]. *)
Definition generate_structured_markdown (le : llm_env) (loads : string -> res json)
    (p : Ai.provider) (text_content subject file_type : string) : res json :=
  match PyFormat.format prompt_template (Ai.prompt_args text_content subject file_type) with
  | Raise e => Raise e
  | Ok prompt =>
      let (call, tag) := match p with
                         | Ai.GeminiProvider _ => (generate_content le prompt, "Gemini API Error: ")
                         | Ai.OpenAIProvider _ => (chat_completions_create le prompt, "OpenAI API Error: ")
                         end in
      match call with
      | Raise e => Raise (ai_error (tag ++ exn_msg e))
      | Ok text => match loads text with
                   | Ok j => Ok j
                   | Raise e => Raise (ai_error (tag ++ exn_msg e))
                   end
      end
  end.

(** [get_ai_provider(...)] then [generate_structured_markdown(...)]. *)
Definition ai_generate (le : llm_env) (loads : string -> res json)
    (provider_name model_name api_key text_content subject file_type : string) : res json :=
  match get_ai_provider le provider_name model_name api_key with
  | Raise e => Raise e
  | Ok p => generate_structured_markdown le loads p text_content subject file_type
  end.

End SvcAi.

(* ------------------------------------------------------------------ *)
(** ** backend/app/main.py: dispatch to the app tasks, and what Celery
    records of a task run *)
Module AppMain.
Import Json Tasks Upload Status.

(** The task module's services with [get_ai_provider(...)
    .generate_structured_markdown(...)] given by [g]. *)
Definition with_ai (sv : services) (g : string -> string -> string -> string -> string -> string -> res json)
    : services :=
  Services (extract_text_from_doc sv) (extract_text_from_docx sv) (extract_text_from_pdf sv)
           (extract_text_smart sv) (convert_to_pdf_com sv)
           (fun p m k t subj ft => lift (g p m k t subj ft))
           (settings_attr sv) (mkdir_parents sv) (open_for_write sv) (linesep sv).

(** A call [.delay(...)] as app/main.py issues it, with its positional arguments. *)
Inductive celery_call :=
| PptToPdf (input_path output_path : string)
| AiConversion (input_path output_path subject arg4 arg5 : string) (arg6 : option string).

Record app_state := AppState {
  a_dirs : list string;
  a_files : list string;
  a_calls : list celery_call
}.

Definition AM := M app_state.

Definition app_empty : app_state := AppState [] [] [].

(** [p.mkdir(parents=True, exist_ok=True)]. *)
Definition a_mkdir (p : string) : AM unit :=
  fun s => (Ok tt, if existsb (String.eqb p) (a_dirs s) then s
                   else AppState (p :: a_dirs s) (a_files s) (a_calls s)).

Definition a_save (p : string) : AM unit :=
  fun s => (Ok tt, AppState (a_dirs s) (p :: a_files s) (a_calls s)).

Definition delay (c : celery_call) : AM unit :=
  fun s => (Ok tt, AppState (a_dirs s) (a_files s) (c :: a_calls s)).

(** backend/app/main.py, [upload_and_dispatch_task], from the parsed
    form on.  [settings_attr] is [getattr(settings, name, None)]. *)
Definition upload_and_dispatch_task (settings_attr : string -> option string)
    (AI_PROVIDER TEMP_FILE_DIR OUTPUT_FILE_DIR request_id task_id : string)
    (file : option string) (task_type : string) (subject : option string) : AM response :=
  match file with
  | None => raise (http_exception "422" "Missing 'file' or 'task_type'.")
  | Some filename =>
  if negb (PyStr.truthy task_type) then raise (http_exception "422" "Missing 'file' or 'task_type'.") else
  let subject := match subject with Some x => x | None => "General" end in
  let task_temp_dir := TEMP_FILE_DIR ++ "/" ++ request_id in
  let input_path := task_temp_dir ++ "/" ++ filename in
  a_mkdir task_temp_dir ;;;
  a_save input_path ;;;
  let output_dir := OUTPUT_FILE_DIR ++ "/" ++ request_id in
  a_mkdir output_dir ;;;
  (if String.eqb task_type "ppt_to_pdf"
   then delay (PptToPdf input_path (output_dir ++ "/" ++ path_stem input_path ++ ".pdf"))
   else if existsb (String.eqb task_type) ["doc_to_markdown"; "docx_to_markdown"; "pdf_to_markdown"]
   then let output_path := output_dir ++ "/" ++ path_stem input_path ++ ".md" in
        let model_name := settings_attr (Ai.upper AI_PROVIDER ++ "_MODEL_NAME") in
        match settings_attr (Ai.upper AI_PROVIDER ++ "_API_KEY") with
        | Some api_key =>
            if PyStr.truthy api_key
            then delay (AiConversion input_path output_path subject AI_PROVIDER api_key model_name)
            else raise (http_exception "400" ("API Key for provider '" ++ AI_PROVIDER ++ "' not set."))
        | None => raise (http_exception "400" ("API Key for provider '" ++ AI_PROVIDER ++ "' not set."))
        end
   else raise (http_exception "400" ("Unknown task type: " ++ task_type))) ;;;
  ret (Accepted task_id)
  end.

(** Running a call: the positional arguments bind to the task's
    parameters, [ai_conversion_task(self, input_path_str,
    output_path_str, subject, api_key, provider_name, model_name)]. *)
Definition run_call (sv : services) (c : celery_call) : TM task_result :=
  match c with
  | PptToPdf i o => app_ppt_to_pdf_task sv i o
  | AiConversion i o subj a4 a5 a6 => app_ai_conversion_task sv i o subj a4 a5 a6
  end.

(** The dict an app task returns. *)
Definition result_dict (r : task_result) : json :=
  match r with
  | Success message output_path warnings =>
      JObj ([("status", JStr "success"); ("message", JStr message); ("output_path", JStr output_path)]
            ++ match warnings with Some w => [("warnings", w)] | None => [] end)
  | Failed message => JObj [("status", JStr "failed"); ("message", JStr message)]
  end.

(** What the result backend stores for a run: a returned value as
    [SUCCESS], a raised exception as [FAILURE] with [str(e)]. *)
Definition celery_outcome (r : res task_result) : celery_state :=
  match r with
  | Ok v => SUCCESS (result_dict v)
  | Raise e => FAILURE (exn_msg e)
  end.

End AppMain.

(* ------------------------------------------------------------------ *)
(** ** backend/app/api/v1/endpoints/conversion_tasks.py: the synchronous
    router and its in-memory [tasks_db] *)
Module Router.
Import Json Tasks Upload Status.

Record router_state := RouterState { db : tasks_db; rfs : fs }.

Definition RM := M router_state.

(** A file-service step run on the router's file system. *)
Definition on_fs {A} (m : TM A) : RM A :=
  fun st => match m (rfs st) with (r, f) => (r, RouterState (db st) f) end.

(** [tasks_db[task_id] = TaskStatusResponse(...)]: the new entry hides
    the old one ([assoc] returns the first binding). *)
Definition db_set (task_id : string) (t : task_status_response) : RM unit :=
  fun st => (Ok tt, RouterState ((task_id, t) :: db st) (rfs st)).

(** [ai_service.get_ai_provider(provider_name, model_name, api_key)
    .generate_structured_markdown(text_content, subject, file_type)]. *)
Definition ai_call := string -> option string -> string -> string -> string -> string -> res json.

(** The extractor chosen by [input_path.suffix.lower()]. *)
Definition router_extract (sv : services) (input_path : string) : TM string :=
  let suffix := Ai.lower (path_suffix input_path) in
  if String.eqb suffix ".doc" then extract_text_from_doc sv input_path
  else if String.eqb suffix ".docx" then extract_text_from_docx sv input_path
  else if String.eqb suffix ".pdf" then extract_text_from_pdf sv input_path
  else raise (value_error ("Unsupported file type for this task: " ++ path_suffix input_path)).

(** The second [try] block up to [success_result]: the output path and
    [structured_result].  [output_dir.mkdir(parents=True, exist_ok=True)]
    is [mkdir_parents] of a path in [output_dir]. *)
Definition router_body (sv : services) (ai : ai_call) (AI_PROVIDER OUTPUT_FILE_DIR task_id task_type subject input_path : string)
    : TM (string * json) :=
  let output_dir := OUTPUT_FILE_DIR ++ "/" ++ task_id in
  if String.eqb task_type "ppt_to_pdf" then
    let output_file_path := output_dir ++ "/" ++ path_stem input_path ++ ".pdf" in
    lift (mkdir_parents sv output_file_path) ;;;
    convert_to_pdf_com sv input_path output_file_path ;;;
    ret (output_file_path, JObj [])
  else if existsb (String.eqb task_type) ["doc_to_markdown"; "docx_to_markdown"; "pdf_to_markdown"] then
    let output_file_path := output_dir ++ "/" ++ path_stem input_path ++ ".md" in
    lift (mkdir_parents sv output_file_path) ;;;
    text <- router_extract sv input_path ;;
    (if negb (PyStr.truthy (PyStr.strip text))
     then raise (value_error "Extracted text is empty, cannot proceed with AI conversion.") else ret tt) ;;;
    let api_key := settings_attr sv (Ai.upper AI_PROVIDER ++ "_API_KEY") in
    let model_name := settings_attr sv (Ai.upper AI_PROVIDER ++ "_MODEL_NAME") in
    match api_key with
    | Some k =>
        if PyStr.truthy k then
          structured_result <- lift (ai AI_PROVIDER model_name k text subject (Ai.upper (path_suffix input_path))) ;;
          markdown_content <- lift (dict_get structured_result "markdown_content" (JStr "")) ;;
          write_output sv output_file_path markdown_content ;;;
          ret (output_file_path, structured_result)
        else raise (value_error ("API Key for provider '" ++ AI_PROVIDER ++ "' is not configured."))
    | None => raise (value_error ("API Key for provider '" ++ AI_PROVIDER ++ "' is not configured."))
    end
  else raise (value_error ("Unknown task type: " ++ task_type)).

(** [upload_and_convert_file]; [task_id] is the new [TaskCreated().id],
    [data] the uploaded bytes.  The statuses it stores are valid
    [TaskStatus] literals, so building the responses cannot fail. *)
Definition upload_and_convert_file (sv : services) (ai : ai_call) (AI_PROVIDER TEMP_FILE_DIR OUTPUT_FILE_DIR : string)
    (task_id task_type subject filename data : string) : RM string :=
  let task_temp_dir := TEMP_FILE_DIR ++ "/" ++ task_id in
  let input_path := task_temp_dir ++ "/" ++ filename in
  try_except (on_fs (lift (mkdir_parents sv input_path) ;;;
                     lift (open_for_write sv input_path) ;;;
                     (fun f => (Ok tt, fs_write input_path data f))))
             (fun _ => raise (Upload.http_exception "500" "Could not save file.")) ;;;
  db_set task_id (TaskStatusResponse task_id "in_progress" None) ;;;
  try_except
    (p <- on_fs (router_body sv ai AI_PROVIDER OUTPUT_FILE_DIR task_id task_type subject input_path) ;;
     warnings <- lift (dict_get (snd p) "warnings" (JArr [])) ;;
     db_set task_id (TaskStatusResponse task_id "success"
                       (Some (JObj [("output_file_url",
                                     JStr ("/downloads/" ++ task_id ++ "/" ++ string_of_list_ascii (path_name (fst p))));
                                    ("source_filename", JStr filename); ("warnings", warnings)]))))
    (fun e => db_set task_id (TaskStatusResponse task_id "failed"
                                (Some (JObj [("error_message", JStr (exn_msg e)); ("source_filename", JStr filename)])))) ;;;
  ret task_id.

End Router.

(* ================================================================== *)
(** * Proofs *)

Module PyStrFacts.
Import PyStr.

Lemma lstrip_shape (s : string) :
  lstrip s = EmptyString \/ exists c r, lstrip s = String c r /\ isspace c = false.
Proof.
  induction s as [|c s IH]; simpl; [left; reflexivity|].
  destruct (isspace c) eqn:E; [exact IH|right; eauto].
Qed.

Lemma rstrip_nonspace (c : ascii) (r : string) :
  isspace c = false -> rstrip (String c r) = String c (rstrip r).
Proof. intros E. simpl. rewrite E. reflexivity. Qed.

Lemma rstrip_idem (s : string) : rstrip (rstrip s) = rstrip s.
Proof.
  induction s as [|c s IH]; simpl; [reflexivity|].
  destruct (isspace c && String.eqb (rstrip s) EmptyString) eqn:E; [reflexivity|].
  simpl. rewrite IH, E. reflexivity.
Qed.

Lemma strip_idem (s : string) : strip (strip s) = strip s.
Proof.
  unfold strip.
  destruct (lstrip_shape s) as [H|(c & r & H & Hc)]; rewrite H.
  - reflexivity.
  - rewrite (rstrip_nonspace c r Hc). simpl. rewrite Hc.
    rewrite <- (rstrip_nonspace c r Hc). apply rstrip_idem.
Qed.

Lemma or_str_strip (a b : string) : strip (or_str (strip a) (strip b)) = or_str (strip a) (strip b).
Proof. unfold or_str. destruct (truthy (strip a)); apply strip_idem. Qed.

End PyStrFacts.

Module PdfFacts.
Import Pdf.


Example direct_text_two_pages :
  fst (direct_text [pg "a" ""; pg "b" ""] []) = Ok ("a" ++ PyStr.nl ++ PyStr.nl ++ "b").
Proof. reflexivity. Qed.

Example app_ocr_skips_failed_page :
  fst (app_ocr_pages 0 [pg "" "one"; Ok (Page (Ok "") (Raise ocr_err)); pg "" "three"] [])
  = Ok ["one"; "three"].
Proof. reflexivity. Qed.

Example app_ocr_stops_at_unloadable_page :
  app_ocr_pages 0 [pg "" "one"; Raise load_err; pg "" "three"] []
  = (Raise load_err, [EvOcr 0]).
Proof. reflexivity. Qed.

Example strip_example : PyStr.strip (" x y" ++ PyStr.nl) = "x y".
Proof. reflexivity. Qed.


Lemma direct_pages_spec (ps : list (res page)) (i : nat) (tr : list event) :
  exists ev, direct_pages i ps tr = (tier1 ps, List.app tr ev) /\ only_get_text ev.
Proof.
  revert i tr. induction ps as [|[p|e] ps IH]; intros i tr; simpl.
  - exists []. rewrite app_nil_r. split; [reflexivity|constructor].
  - unfold bind, tell, lift, ret.
    destruct (get_text p) as [t|e].
    + destruct (IH (S i) (List.app tr [EvGetText i])) as (ev & Hrun & Hev).
      rewrite Hrun. exists (EvGetText i :: ev). rewrite <- app_assoc.
      split; [destruct (tier1 ps); reflexivity|constructor; eauto].
    + exists [EvGetText i]. split; [reflexivity|repeat constructor; eauto].
  - exists []. rewrite app_nil_r. split; [reflexivity|constructor].
Qed.


Lemma direct_text_spec (ps : list (res page)) (tr : list event) :
  exists ev, direct_text ps tr
             = (match tier1 ps with
                | Ok ts => Ok (PyStr.join (PyStr.nl ++ PyStr.nl) ts)
                | Raise e => Raise e end, List.app tr ev) /\ only_get_text ev.
Proof.
  destruct (direct_pages_spec ps 0 tr) as (ev & H & Hev).
  exists ev. unfold direct_text, bind, ret. rewrite H.
  destruct (tier1 ps); split; auto.
Qed.

Lemma only_get_text_no_ocr (ev : list event) :
  only_get_text ev -> ~ In EvOcrStart ev /\ forall i, ~ In (EvOcr i) ev.
Proof.
  intros H. split; [|intros i]; intros Hin;
    apply (proj1 (Forall_forall _ _) H) in Hin; destruct Hin; discriminate.
Qed.


Lemma app_ocr_pages_spec (ps : list (res page)) (i : nat) (tr : list event) :
  app_ocr_pages i ps tr
  = (match load_error ps with
     | None => Ok (ocr_kept (loaded_prefix ps))
     | Some e => Raise e
     end, List.app tr (map EvOcr (seq i (length (loaded_prefix ps))))).
Proof.
  revert i tr. induction ps as [|[p|e] ps IH]; intros i tr; simpl.
  - rewrite app_nil_r. reflexivity.
  - unfold bind, try_except, tell, lift, ret.
    destruct (ocr_text p) as [t|e];
      [destruct (PyStr.truthy t)|]; rewrite IH; rewrite <- app_assoc;
      destruct (load_error ps); reflexivity.
  - rewrite app_nil_r. reflexivity.
Qed.

Lemma app_extract_text_with_ocr_spec (ocr : bool) (ps : list (res page)) (tr : list event) :
  app_extract_text_with_ocr ocr ps tr
  = (app_ocr_outcome ocr ps,
     List.app tr (EvOcrStart :: if ocr then map EvOcr (seq 0 (length (loaded_prefix ps))) else [])).
Proof.
  unfold app_extract_text_with_ocr, app_ocr_outcome, bind, tell, ret.
  destruct ocr; simpl; [|reflexivity].
  rewrite app_ocr_pages_spec, <- app_assoc. simpl.
  destruct (load_error ps); reflexivity.
Qed.


Lemma tier1_ok_loads (ps : list (res page)) (ts : list string) :
  tier1 ps = Ok ts -> load_error ps = None.
Proof.
  revert ts. induction ps as [|[p|e] ps IH]; simpl; intros ts H; [reflexivity| |discriminate].
  destruct (get_text p); [|discriminate].
  destruct (tier1 ps) as [ts'|]; [|discriminate]. exact (IH ts' eq_refl).
Qed.

(** Run of [extract_text_from_pdf] on an openable PDF. *)
Lemma extract_text_from_pdf_opened (ocr : bool) (name : string) (ps : list (res page)) (thr : Z)
    (tr : list event) :
  let t := tier1_or_empty ps in
  exists ev, only_get_text ev /\
  extract_text_from_pdf true ocr name (Opened ps) thr tr
  = if (thr <? slen (PyStr.strip t))%Z
    then (Ok (PyStr.strip t), List.app tr (List.app ev [EvClose]))
    else (match app_ocr_outcome ocr ps with
          | Ok o => Ok (if PyStr.truthy (PyStr.strip o) then PyStr.strip o else PyStr.strip t)
          | Raise e => Raise e
          end,
          List.app tr (List.app ev (List.app (EvOcrStart :: if ocr then map EvOcr (seq 0 (length (loaded_prefix ps))) else [])
                                             [EvClose]))).
Proof.
  intros t. destruct (direct_text_spec ps tr) as (ev & Hd & Hev).
  exists ev. split; [exact Hev|].
  unfold extract_text_from_pdf, negb. cbv iota.
  unfold bind at 1, try_except. cbv beta. rewrite Hd.
  replace (match (match tier1 ps with
                  | Ok ts => Ok (PyStr.join (PyStr.nl ++ PyStr.nl) ts)
                  | Raise e => Raise e end, List.app tr ev) with
           | (Ok a, s') => (Ok a, s') | (Raise e, s') => ret "" s' end)
    with (@Ok string t, List.app tr ev)
    by (unfold t, tier1_or_empty; destruct (tier1 ps); reflexivity).
  unfold slen.
  destruct (thr <? Z.of_nat (String.length (PyStr.strip t)))%Z.
  - unfold bind, tell, ret. rewrite <- app_assoc. reflexivity.
  - unfold try_finally, bind at 1. rewrite app_extract_text_with_ocr_spec.
    destruct (app_ocr_outcome ocr ps) as [o|e];
      [destruct (PyStr.truthy (PyStr.strip o))|];
      unfold tell, ret; repeat rewrite <- app_assoc; reflexivity.
Qed.



(** Run of [extract_text_smart] on a PDF whose Tier-1 text is available. *)
Lemma extract_text_smart_pdf_opened (ocr : bool) (ps : list (res page)) (ts : list string) (tr : list event) :
  tier1 ps = Ok ts ->
  let text := PyStr.join (PyStr.nl ++ PyStr.nl) ts in
  exists ev, only_get_text ev /\
  extract_text_smart_pdf true ocr (Opened ps) tr
  = if (100 <? slen (PyStr.strip text))%Z
    then (Ok (PyStr.strip text), List.app tr (List.app ev [EvClose]))
    else match svc_extract_text_with_ocr ocr ps (List.app tr ev) with
         | (Ok o, tr') => (Ok (PyStr.or_str (PyStr.strip o) (PyStr.strip text)), List.app tr' [EvClose])
         | (Raise e, tr') => (Raise e, List.app tr' [EvClose])
         end.
Proof.
  intros Ht text. destruct (direct_text_spec ps tr) as (ev & Hd & Hev).
  rewrite Ht in Hd. exists ev. split; [exact Hev|].
  unfold extract_text_smart_pdf, try_finally, negb. cbv iota.
  unfold bind at 1. cbv beta. rewrite Hd. unfold slen, text.
  destruct (100 <? _)%Z.
  - unfold ret, tell. rewrite <- app_assoc. reflexivity.
  - unfold bind. destruct (svc_extract_text_with_ocr ocr ps _) as [[]]; reflexivity.
Qed.

End PdfFacts.

Module PdfClaims.
Import Pdf PdfFacts.


(** Supporting fact for the app extractor: with PyMuPDF installed it
    raises exactly on PDFs that cannot be opened and, when the OCR
    helper runs with the OCR libraries installed, on PDFs with a page
    that cannot be loaded. *)
Lemma app_pdf_fails_iff (ocr : bool) (name : string) (f : pdf_file) (thr : Z) (tr : list event) :
  (exists e, fst (extract_text_from_pdf true ocr name f thr tr) = Raise e) <->
  (exists e, f = Unopenable e) \/
  (exists ps e, f = Opened ps /\ ocr = true /\ load_error ps = Some e /\
                (slen (PyStr.strip (tier1_or_empty ps)) <= thr)%Z).
Proof.
  destruct f as [e|ps].
  - split; intros _; [left; eexists; reflexivity|eexists; reflexivity].
  - destruct (extract_text_from_pdf_opened ocr name ps thr tr) as (ev & _ & H).
    rewrite H. split.
    + intros [e He]. right. destruct (thr <? _)%Z eqn:Et; [discriminate|].
      unfold app_ocr_outcome in He. destruct ocr; [|discriminate].
      destruct (load_error ps) as [e'|] eqn:El; [|destruct (PyStr.truthy _); discriminate].
      exists ps, e'. repeat split; auto. apply Z.ltb_ge. exact Et.
    + intros [[e He]|(ps' & e & He & -> & Hl & Hle)]; [discriminate|].
      injection He as <-. apply Z.ltb_ge in Hle. rewrite Hle.
      unfold app_ocr_outcome. rewrite Hl. eexists; reflexivity.
Qed.




(** ** C5 (code bug).  On a three-page PDF whose short Tier-1 text sends
    it to OCR and whose second page raises during OCR, the services
    extractor ([extract_text_smart], used by the Celery worker) aborts
    with the page's exception and never OCRs page 3, while the app
    extractor skips the page and joins pages 1 and 3 with the page-break
    marker. *)
Theorem svc_ocr_page_failure_aborts :
  let doc := Opened [pg "" "page one"; Ok (Page (Ok "") (Raise ocr_err)); pg "" "page three"] in
  fst (extract_text_smart_pdf true true doc []) = Raise ocr_err /\
  ~ In (EvOcr 2) (snd (extract_text_smart_pdf true true doc [])) /\
  fst (extract_text_from_pdf true true "scan.pdf" doc 100 []) = Ok ("page one" ++ page_break ++ "page three").
Proof.
  split; [reflexivity|split; [|reflexivity]].
  simpl. intuition discriminate.
Qed.

(** ** C6 (code bug).  A one-page PDF that opens, whose Tier-1 text is
    ["short"] and whose page raises during OCR: the services extractor
    fails, where the claim (and the app extractor) return the Tier-1
    text. *)
Theorem svc_extraction_fails_on_openable_pdf :
  let doc := Opened [Ok (Page (Ok "short") (Raise ocr_err))] in
  fst (extract_text_smart_pdf true true doc []) = Raise ocr_err /\
  fst (extract_text_from_pdf true true "short.pdf" doc 100 []) = Ok "short".
Proof. split; reflexivity. Qed.

(** ** C10 (confirmed).  Every text returned by the PDF extractors, the
    app's [extract_text_from_pdf] and the services' [extract_text_smart],
    is its own [strip()]: no leading or trailing whitespace, on every
    return path. *)
Theorem pdf_text_is_stripped (mu ocr : bool) (name : string) (f : pdf_file) (thr : Z)
    (tr tr' : list event) (s : string) :
  (extract_text_from_pdf mu ocr name f thr tr = (Ok s, tr') -> PyStr.strip s = s) /\
  (extract_text_smart_pdf mu ocr f tr = (Ok s, tr') -> PyStr.strip s = s).
Proof.
  destruct mu; [|split; intros H; discriminate H].
  destruct f as [e|ps]; [split; intros H; discriminate H|].
  split; intros H.
  - destruct (extract_text_from_pdf_opened ocr name ps thr tr) as (ev & _ & Hr).
    rewrite Hr in H. clear Hr.
    destruct (_ <? _)%Z; [|destruct (app_ocr_outcome ocr ps) as [o|e]; [destruct (PyStr.truthy _)|discriminate H]];
      injection H as <- _; apply PyStrFacts.strip_idem.
  - destruct (tier1 ps) as [ts|e] eqn:Ht.
    + destruct (extract_text_smart_pdf_opened ocr ps ts tr Ht) as (ev & _ & Hr).
      rewrite Hr in H. clear Hr. destruct (_ <? _)%Z.
      * injection H as <- _. apply PyStrFacts.strip_idem.
      * destruct (svc_extract_text_with_ocr ocr ps _) as [[o|e] tr1];
          [injection H as <- _; apply PyStrFacts.or_str_strip|discriminate H].
    + destruct (direct_text_spec ps tr) as (ev & Hd & _). rewrite Ht in Hd.
      unfold extract_text_smart_pdf, try_finally, negb in H. cbv iota in H.
      unfold bind at 1 in H. cbv beta in H. rewrite Hd in H. discriminate H.
Qed.

Lemma pdf_text_is_stripped_witness :
  fst (extract_text_from_pdf true true "s.pdf" (Opened [pg " scanned " "  ocr text  "]) 100 []) = Ok "ocr text" /\
  PyStr.strip "ocr text" = "ocr text".
Proof.
  split; [reflexivity|].
  apply (proj1 (pdf_text_is_stripped true true "s.pdf" (Opened [pg " scanned " "  ocr text  "]) 100 []
                 (snd (extract_text_from_pdf true true "s.pdf" (Opened [pg " scanned " "  ocr text  "]) 100 []))
                 "ocr text")).
  vm_compute. reflexivity.
Defined.

End PdfClaims.

Module ComClaims.
Import Com.

Example svc_convert_ok_trace :
  trace (snd (svc_convert_to_pdf_com true
                (ComEnv (Ok tt) (Ok tt) (Ok tt) (Ok tt) (Ok "") (Ok tt) (Ok tt) (Ok tt)) "a.docx" ".docx" init))
  = [EvCoInit; EvCreate; EvOpen; EvSave 17; EvCloseDoc; EvQuit; EvCoUninit].
Proof. reflexivity. Qed.

(** Supporting fact for the app's [convert_to_pdf_com]: whatever the COM
    calls do, an application that was created is quit and a document
    that was opened is closed. *)
Lemma app_convert_releases (env : com_env) (input_name file_ext : string) :
  let st := snd (app_convert_to_pdf_com true true env input_name file_ext init) in
  (In EvCreate (trace st) -> create env = Ok tt -> In EvQuit (trace st)) /\
  (In EvOpen (trace st) -> open_doc env = Ok tt -> In EvCloseDoc (trace st)).
Proof.
  unfold app_convert_to_pdf_com.
  destruct env as [[[]|?] [[]|?] [[]|?] [[]|?] ? [[]|?] [[]|?] [[]|?]];
    destruct (app_for file_ext) as [[]|]; cbv; intuition congruence.
Qed.

(** ** C7 (code bug).  When [doc.Close()] raises, the services
    [convert_to_pdf_com], the app [extract_text_from_doc] and the
    services [.doc] reader never call [app.Quit()]; the app
    [convert_to_pdf_com], which wraps each release call in its own
    [try/except], still quits the application. *)
Theorem com_close_failure_skips_quit :
  let st1 := snd (svc_convert_to_pdf_com true env_close_fails "deck.pptx" ".pptx" init) in
  let st2 := snd (extract_text_from_doc true env_close_fails "memo.doc" init) in
  let st3 := snd (extract_text_smart_doc true true env_close_fails init) in
  let st4 := snd (app_convert_to_pdf_com true true env_close_fails "deck.pptx" ".pptx" init) in
  In EvCloseDoc (trace st1) /\ ~ In EvQuit (trace st1) /\
  ~ In EvQuit (trace st2) /\ ~ In EvQuit (trace st3) /\
  In EvQuit (trace st4).
Proof. simpl. intuition discriminate. Qed.

End ComClaims.

Module TaskFacts.
Import Json Tasks.

Section MonadFacts.
Context {S A B : Type}.

Lemma bind_ok (m : M S A) (k : A -> M S B) (s s' : S) (a : A) :
  m s = (Ok a, s') -> bind m k s = k a s'.
Proof. intros H; unfold bind; rewrite H; reflexivity. Qed.

Lemma bind_raise (m : M S A) (k : A -> M S B) (s s' : S) (e : exn) :
  m s = (Raise e, s') -> bind m k s = (Raise e, s').
Proof. intros H; unfold bind; rewrite H; reflexivity. Qed.

Lemma try_ok (m : M S A) (h : exn -> M S A) (s s' : S) (a : A) :
  m s = (Ok a, s') -> try_except m h s = (Ok a, s').
Proof. intros H; unfold try_except; rewrite H; reflexivity. Qed.

Lemma try_raise (m : M S A) (h : exn -> M S A) (s s' : S) (e : exn) :
  m s = (Raise e, s') -> try_except m h s = h e s'.
Proof. intros H; unfold try_except; rewrite H; reflexivity. Qed.

(** [m] returns only values satisfying [P] (when it returns). *)
Definition returns (P : B -> Prop) (m : M S B) : Prop :=
  forall s, match fst (m s) with Ok b => P b | Raise _ => True end.

Lemma returns_bind (P : B -> Prop) (m : M S A) (k : A -> M S B) :
  (forall a, returns P (k a)) -> returns P (bind m k).
Proof.
  unfold returns, bind; intros H s.
  destruct (m s) as [[a|e] s']; simpl; [apply H | exact I].
Qed.

Lemma returns_ret (P : B -> Prop) (b : B) : P b -> returns P (ret b).
Proof. intros H s; exact H. Qed.

Lemma returns_raise (P : B -> Prop) (e : exn) : returns P (raise e).
Proof. intros s; exact I. Qed.

End MonadFacts.

Definition is_success (r : task_result) : Prop :=
  match r with Success _ _ _ => True | Failed _ => False end.

Ltac returns_tac :=
  repeat (apply returns_bind; intros);
  first [apply returns_ret; exact I | apply returns_raise].

Lemma app_body_success sv i o subj key prov model :
  returns is_success (app_ai_conversion_body sv i o subj key prov model).
Proof. unfold app_ai_conversion_body, app_save_step; cbv zeta; returns_tac. Qed.

Lemma worker_body_success sv i o subj prov key model :
  returns is_success (worker_ai_conversion_body sv i o subj prov key model).
Proof. unfold worker_ai_conversion_body, worker_save_step; returns_tac. Qed.

(** The app tasks always return a dict: a success, or a failure whose
    message starts with a fixed non-empty prefix. *)
Lemma app_ai_task_returns sv i o subj key prov model fs :
  exists r, fst (app_ai_conversion_task sv i o subj key prov model fs) = Ok r /\
            (is_success r \/ exists m, r = Failed ("An error occurred during AI conversion: " ++ m)).
Proof.
  unfold app_ai_conversion_task, try_except.
  pose proof (app_body_success sv i o subj key prov model fs) as H.
  destruct (app_ai_conversion_body sv i o subj key prov model fs) as [[r|e] fs']; simpl in *;
    eauto.
Qed.

Lemma app_ppt_task_returns sv i o fs :
  exists r, fst (app_ppt_to_pdf_task sv i o fs) = Ok r /\
            (is_success r \/ exists m, r = Failed ("An error occurred: " ++ m)).
Proof.
  unfold app_ppt_to_pdf_task, try_except, bind.
  destruct (convert_to_pdf_com sv i o fs) as [[u|e] fs']; simpl; eexists; split;
    try reflexivity; simpl; eauto.
Qed.

Lemma truthy_of_strip (t : string) :
  PyStr.truthy (PyStr.strip t) = true -> PyStr.truthy t = true.
Proof. destruct t; [discriminate | reflexivity]. Qed.

Lemma fs_lookup_write (p c : string) (f : fs) : fs_lookup (fs_write p c f) p = Some c.
Proof. unfold fs_write; simpl; rewrite String.eqb_refl; reflexivity. Qed.

Lemma translate_newlines_nl (s : string) : translate_newlines PyStr.nl s = s.
Proof.
  induction s as [|c r IH]; simpl; [reflexivity|].
  destruct (Ascii.eqb c "010"%char) eqn:E; rewrite IH; [|reflexivity].
  apply Ascii.eqb_eq in E; subst c; reflexivity.
Qed.

Lemma app_extract_step_ok sv suf input fs text fs1 :
  extract_by_suffix sv suf input fs = (Ok text, fs1) ->
  PyStr.truthy (PyStr.strip text) = true ->
  app_extract_step sv suf input fs = (Ok text, fs1).
Proof.
  intros Hx Ht; unfold app_extract_step.
  rewrite (bind_ok _ _ _ _ _ Hx), (truthy_of_strip _ Ht), Ht; reflexivity.
Qed.

Lemma app_ai_step_eq sv prov model key text subj suf fs1 model' :
  resolve_model sv prov model = Ok model' ->
  app_ai_step sv prov model key text subj suf fs1
  = ai_generate sv prov model' key text subj (Ai.upper suf) fs1.
Proof.
  intros Hm; unfold app_ai_step.
  rewrite (bind_ok (lift (resolve_model sv prov model)) _ fs1 fs1 model'); [reflexivity|].
  unfold lift; rewrite Hm; reflexivity.
Qed.

(** Once the text is extracted and the model resolved, the task body is
    the AI call followed by the save step. *)
Lemma app_body_after_ai sv input output subj key prov model fs text fs1 model' r fs2 :
  extract_by_suffix sv (Ai.lower (path_suffix input)) input fs = (Ok text, fs1) ->
  PyStr.truthy (PyStr.strip text) = true ->
  resolve_model sv prov model = Ok model' ->
  ai_generate sv prov model' key text subj (Ai.upper (Ai.lower (path_suffix input))) fs1 = (r, fs2) ->
  app_ai_conversion_body sv input output subj key prov model fs
  = match r with Ok j => app_save_step sv output j fs2 | Raise e => (Raise e, fs2) end.
Proof.
  intros Hx Ht Hm Hg; unfold app_ai_conversion_body; cbv zeta.
  rewrite (bind_ok _ _ _ _ _ (app_extract_step_ok _ _ _ _ _ _ Hx Ht)).
  pose proof (app_ai_step_eq sv prov model key text subj (Ai.lower (path_suffix input)) fs1 model' Hm) as Ha.
  rewrite Hg in Ha.
  destruct r as [j|e]; [apply bind_ok | apply bind_raise]; exact Ha.
Qed.

Lemma app_save_two_fields sv output m w fs2 :
  PyStr.truthy m = true ->
  mkdir_parents sv output = Ok tt -> open_for_write sv output = Ok tt ->
  app_save_step sv output (JObj [("markdown_content", JStr m); ("warnings", w)]) fs2
  = (Ok (Success "File converted successfully using AI." output (Some w)),
     fs_write output (translate_newlines (linesep sv) m) (fs_write output "" fs2)).
Proof.
  intros Hm Hd Ho; unfold app_save_step, bind, lift, write_output; simpl.
  rewrite Hm, Hd, Ho; reflexivity.
Qed.

Lemma worker_save_two_fields sv output m w fs2 :
  PyStr.truthy m = true -> open_for_write sv output = Ok tt ->
  worker_save_step sv output (JObj [("markdown_content", JStr m); ("warnings", w)]) fs2
  = (Ok (Success "AI conversion successful." output (Some w)),
     fs_write output (translate_newlines (linesep sv) m) (fs_write output "" fs2)).
Proof.
  intros Hm Ho; unfold worker_save_step, bind, lift, write_output; simpl.
  rewrite Hm, Ho; reflexivity.
Qed.

End TaskFacts.

Module TaskClaims.
Import Json Tasks TaskFacts.

(** The app prompt template cannot be formatted: its literal JSON braces
    are read as a replacement field. *)
Lemma format_template_keyerror (t subj ft : string) :
  PyFormat.format Ai.prompt_template (Ai.prompt_args t subj ft)
  = PyFormat.format Ai.prompt_template (Ai.prompt_args "" "" "").
Proof. vm_compute; reflexivity. Qed.

Lemma format_template_class :
  match PyFormat.format Ai.prompt_template (Ai.prompt_args "" "" "") with
  | Raise e => exn_class e = "KeyError"
  | Ok _ => False
  end.
Proof. vm_compute; reflexivity. Qed.

(** ** C2 (code bug).  The app [generate_structured_markdown] raises a
    [KeyError] for every provider, text, subject and file type before the
    backend is called (the prompt's literal JSON braces break
    [str.format]).  Its response handling does not enforce the
    two-field contract either: an object with an extra field is returned
    as is, and a task whose backend reply has a non-string
    [markdown_content] fails only after it has created an empty output
    file.  A reply that is not JSON does become an [AIServiceError]. *)
Theorem ai_contract_not_enforced :
  (forall le loads p t subj ft, exists e,
      Ai.generate_structured_markdown le loads p t subj ft = Raise e /\ exn_class e = "KeyError") /\
  Ai.gemini_handle_response json_loads
    (Ok (Ai.GeminiResponse true
          (Ok ("{" ++ Ai.dq ++ "markdown_content" ++ Ai.dq ++ ": " ++ Ai.dq ++ "# T" ++ Ai.dq ++ ", "
               ++ Ai.dq ++ "warnings" ++ Ai.dq ++ ": [], " ++ Ai.dq ++ "extra" ++ Ai.dq ++ ": 1}"))))
  = Ok (JObj [("markdown_content", JStr "# T"); ("warnings", JArr []); ("extra", JNum 1)]) /\
  Ai.gemini_handle_response json_loads (Ok (Ai.GeminiResponse true (Ok "{not json")))
  = Raise (Exn "AIServiceError" "AI returned an invalid JSON object.") /\
  fst (app_ai_conversion_task
         (sv_with "some text"
            (Ok (JObj [("markdown_content", JStr "# T"); ("warnings", JArr []); ("extra", JNum 1)])) PyStr.nl)
         "in/a.pdf" "out/a.md" "General" "key" "gemini" (Some "m") [])
  = Ok (Success "File converted successfully using AI." "out/a.md" (Some (JArr []))) /\
  app_ai_conversion_task
    (sv_with "some text" (Ok (JObj [("markdown_content", JNum 5); ("warnings", JArr [])])) PyStr.nl)
    "in/a.pdf" "out/a.md" "General" "key" "gemini" (Some "m") []
  = (Ok (Failed "An error occurred during AI conversion: write() argument must be str, not int"),
     [("out/a.md", "")]).
Proof.
  split; [|split; [vm_compute; reflexivity|split; [vm_compute; reflexivity|split; vm_compute; reflexivity]]].
  intros le loads p t subj ft.
  pose proof format_template_class as Hc.
  unfold Ai.generate_structured_markdown; rewrite format_template_keyerror.
  destruct (PyFormat.format Ai.prompt_template (Ai.prompt_args "" "" "")) as [|e]; [contradiction|].
  exists e; split; [reflexivity | exact Hc].
Qed.

(** ** C3 (corrected).  The app tasks never let an exception escape: they
    always return a result, and a failing body becomes a returned failure
    with the message [An error occurred during AI conversion: <e>]
    (respectively [An error occurred: <e>]).  The worker.py tasks
    registered as [tasks.ai_conversion] and [tasks.ppt_to_pdf] re-raise
    the body's exception; Celery then stores [FAILURE] with [str(e)], and
    backend/main.py [get_status] answers that task with status [failed]
    and [error_message] [str(e)]. *)
Theorem task_failures_reported (sv : services) (i o subj prov key model task_id : string)
    (b : Status.celery_backend) (f : fs) (e : exn) :
  (exists r, fst (app_ai_conversion_task sv i o subj key prov (Some model) f) = Ok r) /\
  (exists r, fst (app_ppt_to_pdf_task sv i o f) = Ok r) /\
  (fst (app_ai_conversion_body sv i o subj key prov (Some model) f) = Raise e ->
   fst (app_ai_conversion_task sv i o subj key prov (Some model) f)
   = Ok (Failed ("An error occurred during AI conversion: " ++ exn_msg e))) /\
  (fst (convert_to_pdf_com sv i o f) = Raise e ->
   fst (app_ppt_to_pdf_task sv i o f) = Ok (Failed ("An error occurred: " ++ exn_msg e))) /\
  (fst (worker_ai_conversion_body sv i o subj prov key model f) = Raise e ->
   fst (worker_ai_conversion_task sv i o subj prov key model f) = Raise e /\
   Status.main_get_status
     ((task_id, AppMain.celery_outcome (fst (worker_ai_conversion_task sv i o subj prov key model f))) :: b)
     task_id
   = Ok (Status.TaskStatusResponse task_id "failed" (Some (Status.failed_status_result (exn_msg e))))) /\
  (fst (convert_to_pdf_com sv i o f) = Raise e ->
   fst (worker_ppt_to_pdf_task sv i o f) = Raise e /\
   Status.main_get_status
     ((task_id, AppMain.celery_outcome (fst (worker_ppt_to_pdf_task sv i o f))) :: b) task_id
   = Ok (Status.TaskStatusResponse task_id "failed" (Some (Status.failed_status_result (exn_msg e))))).
Proof.
  assert (Hst : forall r : res task_result * fs, fst r = Raise e ->
            Status.main_get_status ((task_id, AppMain.celery_outcome (fst r)) :: b) task_id
            = Ok (Status.TaskStatusResponse task_id "failed" (Some (Status.failed_status_result (exn_msg e))))).
  { intros r Hr; rewrite Hr.
    unfold Status.main_get_status, Status.async_result; cbn [Status.assoc].
    rewrite String.eqb_refl; reflexivity. }
  unfold worker_ai_conversion_task, worker_ppt_to_pdf_task, app_ai_conversion_task,
    app_ppt_to_pdf_task, try_except, bind.
  split; [|split; [|split; [|split; [|split]]]].
  - destruct (app_ai_conversion_body sv i o subj key prov (Some model) f) as [[r|e'] f']; eexists; reflexivity.
  - destruct (convert_to_pdf_com sv i o f) as [[r|e'] f']; eexists; reflexivity.
  - intros H; destruct (app_ai_conversion_body sv i o subj key prov (Some model) f) as [r f'];
      simpl in *; subst r; reflexivity.
  - intros H; destruct (convert_to_pdf_com sv i o f) as [r f']; simpl in *; subst r; reflexivity.
  - intros H; destruct (worker_ai_conversion_body sv i o subj prov key model f) as [r f'] eqn:Hb;
      simpl in H; subst r.
    split; [reflexivity|].
    apply (Hst (Raise e, f')); reflexivity.
  - intros H; destruct (convert_to_pdf_com sv i o f) as [r f'] eqn:Hb; simpl in H; subst r.
    split; [reflexivity|].
    apply (Hst (Raise e, f')); reflexivity.
Qed.

Lemma task_failures_reported_witness :
  fst (app_ai_conversion_task (sv_failing (Exn "RuntimeError" "COM unavailable"))
         "in/a.pdf" "out/a.md" "General" "key" "gemini" (Some "m") [])
  = Ok (Failed ("An error occurred during AI conversion: " ++ "COM unavailable")) /\
  fst (app_ppt_to_pdf_task (sv_failing (Exn "RuntimeError" "COM unavailable")) "in/a.pptx" "out/a.pdf" [])
  = Ok (Failed ("An error occurred: " ++ "COM unavailable")) /\
  Status.main_get_status
    [("t1", AppMain.celery_outcome
              (fst (worker_ai_conversion_task (sv_failing (Exn "RuntimeError" "COM unavailable"))
                      "in/a.pdf" "out/a.md" "General" "gemini" "key" "m" [])))] "t1"
  = Ok (Status.TaskStatusResponse "t1" "failed" (Some (Status.failed_status_result "COM unavailable"))) /\
  Status.main_get_status
    [("t2", AppMain.celery_outcome
              (fst (worker_ppt_to_pdf_task (sv_failing (Exn "RuntimeError" "COM unavailable"))
                      "in/a.pptx" "out/a.pdf" [])))] "t2"
  = Ok (Status.TaskStatusResponse "t2" "failed" (Some (Status.failed_status_result "COM unavailable"))).
Proof.
  destruct (task_failures_reported (sv_failing (Exn "RuntimeError" "COM unavailable"))
              "in/a.pdf" "out/a.md" "General" "gemini" "key" "m" "t1" [] [] (Exn "RuntimeError" "COM unavailable"))
    as [_ [_ [H1 [_ [H3 _]]]]].
  destruct (task_failures_reported (sv_failing (Exn "RuntimeError" "COM unavailable"))
              "in/a.pptx" "out/a.pdf" "General" "gemini" "key" "m" "t2" [] [] (Exn "RuntimeError" "COM unavailable"))
    as [_ [_ [_ [H2 [_ H4]]]]].
  split; [apply H1; reflexivity|].
  split; [apply H2; reflexivity|].
  split; [apply H3; reflexivity|apply H4; reflexivity].
Defined.

(** A worker.py task lets the exception of its body escape: with
    [extract_text_smart] raising [RuntimeError('COM unavailable')],
    [tasks.ai_conversion] raises it, and so does [tasks.ppt_to_pdf] when
    [convert_to_pdf_com] raises. *)
Lemma worker_task_exception_escapes :
  fst (worker_ai_conversion_task (sv_failing (Exn "RuntimeError" "COM unavailable"))
         "in/a.pdf" "out/a.md" "General" "gemini" "key" "m" [])
  = Raise (Exn "RuntimeError" "COM unavailable") /\
  fst (worker_ppt_to_pdf_task (sv_failing (Exn "RuntimeError" "COM unavailable")) "in/a.pptx" "out/a.pdf" [])
  = Raise (Exn "RuntimeError" "COM unavailable").
Proof. split; vm_compute; reflexivity. Qed.

(** ** C8 (corrected).  When extraction yields non-blank text and the
    backend returns [{markdown_content: m, warnings: w}] with [m] a
    non-empty string, and the output directory and file can be created,
    both tasks succeed with exactly [w] as warnings and leave the output
    file holding [translate_newlines os.linesep m]: [m] itself where
    [os.linesep] is a line feed. *)
Theorem ai_output_as_written :
  (forall sv input output subj key prov model f text f1 model' f2 m w,
     extract_by_suffix sv (Ai.lower (path_suffix input)) input f = (Ok text, f1) ->
     PyStr.truthy (PyStr.strip text) = true ->
     resolve_model sv prov model = Ok model' ->
     ai_generate sv prov model' key text subj (Ai.upper (Ai.lower (path_suffix input))) f1
       = (Ok (JObj [("markdown_content", JStr m); ("warnings", w)]), f2) ->
     PyStr.truthy m = true ->
     mkdir_parents sv output = Ok tt -> open_for_write sv output = Ok tt ->
     app_ai_conversion_task sv input output subj key prov model f
     = (Ok (Success "File converted successfully using AI." output (Some w)),
        fs_write output (translate_newlines (linesep sv) m) (fs_write output "" f2))) /\
  (forall sv input output subj prov key model f text f1 f2 m w,
     extract_text_smart sv input f = (Ok text, f1) ->
     PyStr.truthy text = true ->
     ai_generate sv prov model key text subj (path_suffix input) f1
       = (Ok (JObj [("markdown_content", JStr m); ("warnings", w)]), f2) ->
     PyStr.truthy m = true ->
     open_for_write sv output = Ok tt ->
     worker_ai_conversion_task sv input output subj prov key model f
     = (Ok (Success "AI conversion successful." output (Some w)),
        fs_write output (translate_newlines (linesep sv) m) (fs_write output "" f2))) /\
  (forall output (c : string) (g : fs), fs_lookup (fs_write output c g) output = Some c) /\
  (forall m, translate_newlines PyStr.nl m = m).
Proof.
  split; [|split; [|split; [exact fs_lookup_write | exact translate_newlines_nl]]].
  - intros sv input output subj key prov model f text f1 model' f2 m w Hx Ht Hm Hg Hmd Hd Ho.
    unfold app_ai_conversion_task; apply try_ok.
    rewrite (app_body_after_ai _ _ _ _ _ _ _ _ _ _ _ _ _ Hx Ht Hm Hg).
    apply app_save_two_fields; assumption.
  - intros sv input output subj prov key model f text f1 f2 m w Hx Ht Hg Hmd Ho.
    unfold worker_ai_conversion_task; apply try_ok.
    unfold worker_ai_conversion_body.
    rewrite (bind_ok _ _ _ _ _ Hx), Ht; cbn [negb].
    rewrite (bind_ok (ret tt) _ f1 f1 tt eq_refl).
    rewrite (bind_ok _ _ _ _ _ Hg).
    apply worker_save_two_fields; assumption.
Qed.

Lemma ai_output_as_written_witness :
  app_ai_conversion_task
    (sv_with "some text" (Ok (JObj [("markdown_content", JStr "# Title"); ("warnings", JArr [])])) PyStr.nl)
    "in/a.pdf" "out/a.md" "General" "key" "gemini" (Some "m") []
  = (Ok (Success "File converted successfully using AI." "out/a.md" (Some (JArr []))),
     fs_write "out/a.md" "# Title" (fs_write "out/a.md" "" [])) /\
  worker_ai_conversion_task
    (sv_with "some text" (Ok (JObj [("markdown_content", JStr "# Title"); ("warnings", JArr [])])) PyStr.nl)
    "in/a.pdf" "out/a.md" "General" "gemini" "key" "m" []
  = (Ok (Success "AI conversion successful." "out/a.md" (Some (JArr []))),
     fs_write "out/a.md" "# Title" (fs_write "out/a.md" "" [])).
Proof.
  destruct ai_output_as_written as [HA [HW _]].
  split.
  - apply (HA (sv_with "some text" (Ok (JObj [("markdown_content", JStr "# Title"); ("warnings", JArr [])])) PyStr.nl)
             "in/a.pdf" "out/a.md" "General" "key" "gemini" (Some "m") [] "some text" [] "m" [] "# Title" (JArr []));
      reflexivity.
  - apply (HW (sv_with "some text" (Ok (JObj [("markdown_content", JStr "# Title"); ("warnings", JArr [])])) PyStr.nl)
             "in/a.pdf" "out/a.md" "General" "gemini" "key" "m" [] "some text" [] [] "# Title" (JArr []));
      reflexivity.
Defined.

(** C8 counterexample: with [os.linesep] = CR LF (Windows, where the COM
    converters run), a two-line [m] is not written byte for byte. *)
Lemma ai_output_crlf :
  fs_lookup (snd (app_ai_conversion_task
                    (sv_with "some text"
                       (Ok (JObj [("markdown_content", JStr ("# Title" ++ PyStr.nl ++ "Body")); ("warnings", JArr [])]))
                       crlf)
                    "in/a.pdf" "out/a.md" "General" "key" "gemini" (Some "m") []))
            "out/a.md"
  = Some ("# Title" ++ crlf ++ "Body") /\
  fs_lookup (snd (app_ai_conversion_task
                    (sv_with "some text"
                       (Ok (JObj [("markdown_content", JStr ("# Title" ++ PyStr.nl ++ "Body")); ("warnings", JArr [])]))
                       crlf)
                    "in/a.pdf" "out/a.md" "General" "key" "gemini" (Some "m") []))
            "out/a.md"
  <> Some ("# Title" ++ PyStr.nl ++ "Body").
Proof. split; [vm_compute; reflexivity | vm_compute; discriminate]. Qed.

End TaskClaims.

Module UploadClaims.
Import Tasks Upload.

(** ** C4 (code bug).  The Flask handler refuses a file whose extension
    the task type does not accept before it creates a directory or saves
    a file.  The FastAPI handler of backend/main.py checks no extension:
    for [ppt_to_pdf] it saves any upload, creates the output directory
    and dispatches [tasks.ppt_to_pdf], whatever the file's extension,
    e.g. a [.pdf] file that the Flask check rejects. *)
Theorem upload_extension_check_only_in_flask :
  (forall secure_filename req_id run_conversion filename task_type s,
     filename <> "" -> PyStr.truthy task_type = true ->
     ext_rejected task_type (Ai.lower (path_suffix filename)) = true ->
     upload_and_process secure_filename req_id run_conversion true filename task_type s
     = (Ok (Reply 400 "error" ("File type mismatch: Task '" ++ task_type ++ "' doesn't support '"
                               ++ Ai.lower (path_suffix filename) ++ "' files.")), s)) /\
  (forall config req_id task_id filename subject s,
     existsb (String.eqb ("temp_files/" ++ req_id)) (dirs s) = false ->
     existsb (String.eqb ("output_files/" ++ req_id)) (dirs s) = false ->
     upload_and_dispatch config req_id task_id (Some filename) "ppt_to_pdf" subject s
     = (Ok (Accepted task_id),
        UploadState (("output_files/" ++ req_id) :: ("temp_files/" ++ req_id) :: dirs s)
                    (("temp_files/" ++ req_id ++ "/" ++ filename) :: files s)
                    (("tasks.ppt_to_pdf",
                      ["temp_files/" ++ req_id ++ "/" ++ filename;
                       "output_files/" ++ req_id ++ "/" ++ path_stem ("temp_files/" ++ req_id ++ "/" ++ filename) ++ ".pdf"])
                     :: sent s))) /\
  ext_rejected "ppt_to_pdf" ".pdf" = true.
Proof.
  split; [|split; [|reflexivity]].
  - intros secure_filename req_id run_conversion filename task_type s Hf Ht Hr.
    unfold upload_and_process; cbv zeta.
    apply String.eqb_neq in Hf; rewrite Hf, Ht, Hr; reflexivity.
  - intros config req_id task_id filename subject s Ht Ho.
    unfold upload_and_dispatch, mkdir_new, save_file, send_task, bind, ret.
    change (negb (PyStr.truthy "ppt_to_pdf")) with false; cbv beta iota.
    rewrite Ht; cbv beta iota; cbn [dirs files sent existsb].
    replace (String.eqb ("output_files/" ++ req_id) ("temp_files/" ++ req_id)) with false by reflexivity.
    rewrite Ho; reflexivity.
Qed.

Lemma upload_extension_check_only_in_flask_witness :
  upload_and_process (fun x => x) "r1" (fun _ _ _ => ret (Reply 200 "success" "")) true "a.pdf" "ppt_to_pdf" empty_state
  = (Ok (Reply 400 "error" ("File type mismatch: Task 'ppt_to_pdf' doesn't support '" ++ ".pdf" ++ "' files.")),
     empty_state) /\
  upload_and_dispatch (fun _ => None) "r1" "t1" (Some "a.pdf") "ppt_to_pdf" None empty_state
  = (Ok (Accepted "t1"),
     UploadState ["output_files/r1"; "temp_files/r1"] ["temp_files/r1/a.pdf"]
                 [("tasks.ppt_to_pdf", ["temp_files/r1/a.pdf"; "output_files/r1/a.pdf"])]).
Proof.
  destruct upload_extension_check_only_in_flask as [HF [HM _]].
  split.
  - apply (HF (fun x => x) "r1" (fun _ _ _ => ret (Reply 200 "success" "")) "a.pdf" "ppt_to_pdf" empty_state);
      [discriminate | reflexivity | reflexivity].
  - apply (HM (fun _ => None) "r1" "t1" "a.pdf" None empty_state); reflexivity.
Defined.

End UploadClaims.

Module StatusClaims.
Import Status.

(** ** C9 (code bug).  For an id with no job, the in-memory router's
    [get_task_status] fails with 404 [Task not found], but the
    Celery-backed [get_task_status] of backend/app/main.py answers
    [in_progress]: Celery reports unknown ids as [PENDING]. *)
Theorem status_of_unknown_id :
  (forall (db : tasks_db) task_id, assoc db task_id = None ->
     router_get_task_status db task_id = Raise (Exn "HTTPException" "404: Task not found")) /\
  (forall (b : celery_backend) task_id, assoc b task_id = None ->
     app_get_task_status b task_id = Ok (TaskStatusResponse task_id "in_progress" None)).
Proof.
  split; intros db task_id H.
  - unfold router_get_task_status; rewrite H; reflexivity.
  - unfold app_get_task_status, async_result; rewrite H; reflexivity.
Qed.

Lemma status_of_unknown_id_witness :
  router_get_task_status [] "0b6f0c1e-never-created" = Raise (Exn "HTTPException" "404: Task not found") /\
  app_get_task_status [("a1", SUCCESS (Json.JObj []))] "0b6f0c1e-never-created"
  = Ok (TaskStatusResponse "0b6f0c1e-never-created" "in_progress" None).
Proof.
  destruct status_of_unknown_id as [HR HA].
  split; [apply HR | apply HA]; reflexivity.
Defined.

End StatusClaims.

Module ExtraPdf.
Import Pdf PdfFacts.

Lemma only_get_text_no_close (ev : list event) : only_get_text ev -> ~ In EvClose ev.
Proof.
  intros H Hin. apply (proj1 (Forall_forall _ _) H) in Hin. destruct Hin; discriminate.
Qed.

Lemma ocr_events_no_close (ocr : bool) (n : nat) :
  ~ In EvClose (EvOcrStart :: if ocr then map EvOcr (seq 0 n) else []).
Proof.
  intros [H|H]; [discriminate|]. destruct ocr; [|contradiction].
  apply in_map_iff in H. destruct H as (i & H & _). discriminate.
Qed.

(** On a PDF that opened, the app's [extract_text_from_pdf] closes the
    document exactly once, as its last action, on every path; it raises
    only when the OCR helper runs with the OCR libraries installed and a
    page cannot be loaded ([enumerate(pdf_doc)] is outside the helper's
    [try]), and then with that page's error. *)
Theorem app_pdf_close_and_failure (ocr : bool) (name : string) (ps : list (res page)) (thr : Z) :
  let run := extract_text_from_pdf true ocr name (Opened ps) thr [] in
  (exists ev, snd run = List.app ev [EvClose] /\ ~ In EvClose ev) /\
  (forall e, fst run = Raise e <->
             ocr = true /\ load_error ps = Some e /\ (slen (PyStr.strip (tier1_or_empty ps)) <= thr)%Z).
Proof.
  intros run. unfold run.
  destruct (extract_text_from_pdf_opened ocr name ps thr []) as (ev & Hev & H). rewrite H.
  split.
  - destruct (thr <? _)%Z.
    + exists ev; split; [reflexivity | apply only_get_text_no_close, Hev].
    + exists (List.app ev (EvOcrStart :: if ocr then map EvOcr (seq 0 (length (loaded_prefix ps))) else [])).
      split; [rewrite <- app_assoc; reflexivity|].
      intros Hin; apply in_app_or in Hin; destruct Hin as [Hin|Hin];
        [exact (only_get_text_no_close ev Hev Hin) | exact (ocr_events_no_close ocr _ Hin)].
  - intros e. destruct (thr <? _)%Z eqn:Et.
    + split; [discriminate|]. intros (_ & _ & Hle). apply Z.ltb_lt in Et. lia.
    + apply Z.ltb_ge in Et. unfold app_ocr_outcome. destruct ocr.
      * destruct (load_error ps) as [e'|]; simpl.
        -- split; [intros Hr; injection Hr as <-; auto|intros (_ & Hl & _); injection Hl as <-; reflexivity].
        -- split; [destruct (PyStr.truthy _); discriminate|intros (_ & Hl & _); discriminate].
      * simpl. split; [intros Hr; discriminate Hr|intros (Hf & _); discriminate].
Qed.

Lemma app_pdf_close_and_failure_witness :
  fst (extract_text_from_pdf true true "locked.pdf" (Opened [Raise load_err; Raise load_err]) 100 [])
  = Raise load_err.
Proof.
  apply (proj2 (proj2 (app_pdf_close_and_failure true "locked.pdf" [Raise load_err; Raise load_err] 100) load_err)).
  split; [reflexivity|split; [reflexivity|vm_compute; discriminate]].
Defined.

(** When the Tier-1 pass raises (a page's text or a page's loading),
    the app's [extract_text_from_pdf] takes the Tier-1 text as empty
    and, for a non-negative threshold, enters the OCR helper; with the
    OCR libraries installed it returns the stripped OCR text of the
    pages, or raises the load error of the first page that cannot be
    loaded; without them it returns [""]. *)
Theorem app_pdf_tier1_error_goes_to_ocr (ocr : bool) (name : string) (ps : list (res page)) (thr : Z) (e : exn) :
  tier1 ps = Raise e -> (0 <= thr)%Z ->
  fst (extract_text_from_pdf true ocr name (Opened ps) thr [])
  = (if ocr then match load_error ps with
                 | None => Ok (PyStr.strip (PyStr.join page_break (ocr_kept (loaded_prefix ps))))
                 | Some e' => Raise e'
                 end
     else Ok "") /\
  In EvOcrStart (snd (extract_text_from_pdf true ocr name (Opened ps) thr [])).
Proof.
  intros Ht Hthr.
  destruct (extract_text_from_pdf_opened ocr name ps thr []) as (ev & _ & H). rewrite H.
  unfold tier1_or_empty in *; rewrite Ht in *.
  replace (thr <? slen (PyStr.strip ""))%Z with false by (unfold slen; simpl; symmetry; apply Z.ltb_ge; lia).
  simpl fst; simpl snd. split.
  - unfold app_ocr_outcome. destruct ocr; [|reflexivity].
    destruct (load_error ps); [reflexivity|].
    destruct (PyStr.truthy (PyStr.strip (PyStr.join page_break (ocr_kept (loaded_prefix ps))))) eqn:E; [reflexivity|].
    unfold PyStr.truthy in E. apply negb_false_iff, String.eqb_eq in E. rewrite E. reflexivity.
  - rewrite !in_app_iff; simpl; tauto.
Qed.

Lemma app_pdf_tier1_error_goes_to_ocr_witness :
  fst (extract_text_from_pdf true true "scan.pdf" (Opened [Ok (Page (Raise ocr_err) (Ok "scanned"))]) 100 [])
  = Ok "scanned" /\
  In EvOcrStart (snd (extract_text_from_pdf true true "scan.pdf" (Opened [Ok (Page (Raise ocr_err) (Ok "scanned"))]) 100 [])).
Proof.
  apply (app_pdf_tier1_error_goes_to_ocr true "scan.pdf" [Ok (Page (Raise ocr_err) (Ok "scanned"))] 100 ocr_err);
    [reflexivity | lia].
Defined.

(** The app's OCR helper, with the OCR libraries installed, OCRs the
    pages in order and joins with the page-break marker the non-empty
    outputs of the pages whose OCR did not raise; a page that cannot be
    loaded ends it with that page's error, after the pages before it
    were OCRed. *)
Theorem app_ocr_helper_skips_failures (ps : list (res page)) :
  app_extract_text_with_ocr true ps []
  = (match load_error ps with
     | None => Ok (PyStr.join page_break (ocr_kept (loaded_prefix ps)))
     | Some e => Raise e
     end, EvOcrStart :: map EvOcr (seq 0 (length (loaded_prefix ps)))).
Proof. rewrite app_extract_text_with_ocr_spec. reflexivity. Qed.



End ExtraPdf.

Module ExtraDocx.
Import Docx.

Lemma join_nonempty_empty (sep : string) (xs : list string) :
  Forall (fun x => x <> "") xs -> PyStr.join sep xs = "" -> xs = [].
Proof.
  intros H Hj. destruct xs as [|x [|y r]]; [reflexivity| |]; inversion H; subst.
  - simpl in Hj. contradiction.
  - simpl in Hj. destruct x; [contradiction|discriminate].
Qed.

(** The app's [extract_text_from_docx] returns the empty string exactly
    when every paragraph of the document is empty, and turns a read
    failure into [FileProcessingError] naming the file. *)
Theorem docx_text_empty_iff (name : string) (ps : list string) :
  (extract_text_from_docx true name (DocxParagraphs ps) = Ok "" <-> Forall (fun p => p = "") ps) /\
  (forall e, extract_text_from_docx true name (DocxUnreadable e)
             = Raise (Exn "FileProcessingError"
                          ("Could not extract text from DOCX '" ++ name ++ "': " ++ exn_msg e))).
Proof.
  split; [|intros e; reflexivity].
  unfold extract_text_from_docx, join_paragraphs; simpl. split.
  - intros H; injection H as H.
    apply join_nonempty_empty in H.
    + apply Forall_forall; intros x Hx.
      destruct (PyStr.truthy x) eqn:E.
      * assert (In x (filter PyStr.truthy ps)) as Hf by (apply filter_In; auto).
        rewrite H in Hf; contradiction.
      * unfold PyStr.truthy in E; apply negb_false_iff, String.eqb_eq in E; exact E.
    + apply Forall_forall; intros x Hx. apply filter_In in Hx. destruct Hx as [_ Hx].
      intros ->; discriminate.
  - intros H.
    replace (filter PyStr.truthy ps) with (@nil string); [reflexivity|].
    induction H as [|x r Hx _ IH]; [reflexivity|]. subst x; simpl; exact IH.
Qed.

End ExtraDocx.

Module ExtraSmart.
Import Tasks Docx Smart.



End ExtraSmart.

Module ExtraAi.
Import Json Tasks TaskFacts AppMain.

Lemma svc_format_keyerror (t subj ft : string) :
  PyFormat.format SvcAi.prompt_template (Ai.prompt_args t subj ft)
  = PyFormat.format SvcAi.prompt_template (Ai.prompt_args "" "" "").
Proof. vm_compute; reflexivity. Qed.

Lemma svc_format_class :
  match PyFormat.format SvcAi.prompt_template (Ai.prompt_args "" "" "") with
  | Raise e => exn_class e = "KeyError"
  | Ok _ => False
  end.
Proof. vm_compute; reflexivity. Qed.

Lemma app_generate_raises le loads p t subj ft :
  exists e, Ai.generate_structured_markdown le loads p t subj ft = Raise e.
Proof.
  pose proof TaskClaims.format_template_class as Hc.
  unfold Ai.generate_structured_markdown; rewrite TaskClaims.format_template_keyerror.
  destruct (PyFormat.format Ai.prompt_template (Ai.prompt_args "" "" "")) as [|e]; [contradiction|eauto].
Qed.

Lemma svc_generate_raises le loads p t subj ft :
  exists e, SvcAi.generate_structured_markdown le loads p t subj ft = Raise e /\ exn_class e = "KeyError".
Proof.
  pose proof svc_format_class as Hc.
  unfold SvcAi.generate_structured_markdown; rewrite svc_format_keyerror.
  destruct (PyFormat.format SvcAi.prompt_template (Ai.prompt_args "" "" "")) as [|e]; [contradiction|eauto].
Qed.

Lemma app_ai_generate_raises le loads p m k t subj ft :
  exists e, Ai.ai_generate le loads p m k t subj ft = Raise e.
Proof.
  unfold Ai.ai_generate. destruct (Ai.get_ai_provider le p m k) as [q|e]; [apply app_generate_raises|eauto].
Qed.

Lemma svc_ai_generate_raises le loads p m k t subj ft :
  exists e, SvcAi.ai_generate le loads p m k t subj ft = Raise e.
Proof.
  unfold SvcAi.ai_generate. destruct (SvcAi.get_ai_provider le p m k) as [q|e]; [|eauto].
  destruct (svc_generate_raises le loads q t subj ft) as (e & He & _); eauto.
Qed.

Lemma returns_lift_raise {S A B : Type} (P : B -> Prop) (r : res A) (k : A -> M S B) :
  (exists e, r = Raise e) -> returns P (bind (lift r) k).
Proof. intros [e ->] s; exact I. Qed.

Lemma returns_bind_false {S A B : Type} (P : B -> Prop) (m : M S A) (k : A -> M S B) :
  returns (fun _ => False) m -> returns P (bind m k).
Proof.
  intros H s; specialize (H s); unfold bind.
  destruct (m s) as [[a|e] s']; [contradiction | exact I].
Qed.

Lemma returns_false_raises {S B : Type} (m : M S B) (s : S) :
  returns (fun _ => False) m -> exists e, fst (m s) = Raise e.
Proof. intros H; specialize (H s); destruct (fst (m s)) as [b|e]; [contradiction|eauto]. Qed.

(** The services [generate_structured_markdown] of backend/services
    raises [KeyError] for every provider, text, subject and file type:
    its prompt template cannot be formatted, and the call happens before
    its [try]. *)
Theorem svc_generate_always_keyerror (le : SvcAi.llm_env) (loads : string -> res json)
    (p : Ai.provider) (t subj ft : string) :
  exists e, SvcAi.generate_structured_markdown le loads p t subj ft = Raise e /\ exn_class e = "KeyError".
Proof. apply svc_generate_raises. Qed.

Lemma worker_ai_task_raises (sv : services) (le : SvcAi.llm_env) (loads : string -> res json)
    (i o subj prov key model : string) (f : fs) :
  exists e, fst (worker_ai_conversion_task (with_ai sv (SvcAi.ai_generate le loads)) i o subj prov key model f)
            = Raise e.
Proof.
  assert (H : returns (fun _ => False)
                (worker_ai_conversion_body (with_ai sv (SvcAi.ai_generate le loads)) i o subj prov key model)).
  { unfold worker_ai_conversion_body. apply returns_bind; intros t.
    apply returns_bind; intros _. simpl ai_generate.
    apply returns_lift_raise, svc_ai_generate_raises. }
  destruct (returns_false_raises _ f H) as [e He].
  unfold worker_ai_conversion_task, try_except.
  destruct (worker_ai_conversion_body _ i o subj prov key model f) as [r f']; simpl in *; subst r.
  exists e; reflexivity.
Qed.

Lemma app_ai_task_fails (sv : services) (le : Ai.llm_env) (loads : string -> option json)
    (i o subj key prov : string) (model : option string) (f : fs) :
  exists m, fst (app_ai_conversion_task (with_ai sv (Ai.ai_generate le loads)) i o subj key prov model f)
            = Ok (Failed ("An error occurred during AI conversion: " ++ m)).
Proof.
  assert (H : returns (fun _ => False)
                (app_ai_conversion_body (with_ai sv (Ai.ai_generate le loads)) i o subj key prov model)).
  { unfold app_ai_conversion_body, app_ai_step; cbv zeta. apply returns_bind; intros t.
    apply returns_bind_false. apply returns_bind; intros mdl. simpl ai_generate.
    intros s'; destruct (app_ai_generate_raises le loads prov mdl key t subj (Ai.upper (Ai.lower (path_suffix i))))
      as [e ->]; exact I. }
  destruct (returns_false_raises _ f H) as [e He].
  unfold app_ai_conversion_task, try_except.
  destruct (app_ai_conversion_body _ i o subj key prov model f) as [r f']; simpl in *; subst r.
  exists (exn_msg e); reflexivity.
Qed.

(** The worker's [ai_conversion_task], run with the worker's own AI
    service, never completes: every run raises. *)
Theorem worker_ai_task_never_succeeds (sv : services) (le : SvcAi.llm_env) (loads : string -> res json)
    (i o subj prov key model : string) (f : fs) :
  exists e, fst (worker_ai_conversion_task (with_ai sv (SvcAi.ai_generate le loads)) i o subj prov key model f)
            = Raise e.
Proof. apply worker_ai_task_raises. Qed.

(** The app's [ai_conversion_task], run with the app's AI service, never
    converts: every run returns a failed result with the task's error
    prefix. *)
Theorem app_ai_task_always_failed (sv : services) (le : Ai.llm_env) (loads : string -> option json)
    (i o subj key prov : string) (model : option string) (f : fs) :
  exists m, fst (app_ai_conversion_task (with_ai sv (Ai.ai_generate le loads)) i o subj key prov model f)
            = Ok (Failed ("An error occurred during AI conversion: " ++ m)).
Proof. apply app_ai_task_fails. Qed.

End ExtraAi.

Module ExtraCom.
Import Com.

(** The app's [convert_to_pdf_com] succeeds as soon as the directory,
    the application, the visibility, the open and the save succeed,
    whatever [doc.Close()] and [app.Quit()] do; it then has created,
    opened, saved in the application's PDF format, closed and quit, and
    leaves no COM object bound. *)
Theorem app_convert_ok_despite_release_errors (env : com_env) (input_name file_ext : string) (a : office_app) :
  app_for file_ext = Some a ->
  mkdir env = Ok tt -> create env = Ok tt -> set_visible env = Ok tt ->
  open_doc env = Ok tt -> save_as env = Ok tt ->
  app_convert_to_pdf_com true true env input_name file_ext init
  = (Ok tt, ComState [EvCreate; EvOpen; EvSave (save_format a); EvCloseDoc; EvQuit] false false).
Proof.
  intros Ha Hm Hc Hv Ho Hs. unfold app_convert_to_pdf_com; simpl negb; cbv iota; rewrite Ha.
  destruct env as [c v o sv ct cl q mk]; simpl in *; subst.
  destruct cl as [[]|?], q as [[]|?]; reflexivity.
Qed.

Lemma app_convert_ok_despite_release_errors_witness :
  app_convert_to_pdf_com true true (ComEnv (Ok tt) (Ok tt) (Ok tt) (Ok tt) (Ok "") (Raise com_err) (Raise com_err) (Ok tt))
    "deck.pptx" ".pptx" init
  = (Ok tt, ComState [EvCreate; EvOpen; EvSave (save_format Powerpoint); EvCloseDoc; EvQuit] false false).
Proof. apply app_convert_ok_despite_release_errors; reflexivity. Defined.

(** For a supported extension, the app's [convert_to_pdf_com] either
    succeeds or raises [FileProcessingError] naming the file and giving
    the reason; it succeeds exactly when the directory, the application, the
    visibility, the open and the save succeed; and it leaves no COM object
    bound. *)
Theorem app_convert_outcome (env : com_env) (input_name file_ext : string) (a : office_app) :
  app_for file_ext = Some a ->
  let r := app_convert_to_pdf_com true true env input_name file_ext init in
  app (snd r) = false /\ doc (snd r) = false /\
  (fst r = Ok tt <-> mkdir env = Ok tt /\ create env = Ok tt /\ set_visible env = Ok tt /\
                     open_doc env = Ok tt /\ save_as env = Ok tt) /\
  (forall e, fst r = Raise e ->
     exists m, e = Exn "FileProcessingError" ("Failed to convert '" ++ input_name ++ "' via COM interface. Reason: " ++ m)).
Proof.
  intros Ha; unfold app_convert_to_pdf_com; simpl negb; cbv iota; rewrite Ha.
  destruct env as [[[]|?] [[]|?] [[]|?] [[]|?] ? [[]|?] [[]|?] [[]|?]];
    destruct a; cbv; (split; [reflexivity|split; [reflexivity|split]]);
    first [ split; [intros _; intuition reflexivity | reflexivity]
          | split; [discriminate | intuition discriminate]
          | idtac ];
    intros x Hx; try discriminate; injection Hx as <-; eexists; reflexivity.
Qed.

Lemma app_convert_outcome_witness :
  let r := app_convert_to_pdf_com true true env_close_fails "memo.docx" ".docx" init in
  app (snd r) = false /\ doc (snd r) = false /\
  (fst r = Ok tt <-> mkdir env_close_fails = Ok tt /\ create env_close_fails = Ok tt /\
                     set_visible env_close_fails = Ok tt /\ open_doc env_close_fails = Ok tt /\
                     save_as env_close_fails = Ok tt) /\
  (forall e, fst r = Raise e ->
     exists m, e = Exn "FileProcessingError" ("Failed to convert 'memo.docx' via COM interface. Reason: " ++ m)).
Proof. apply (app_convert_outcome env_close_fails "memo.docx" ".docx" Word). reflexivity. Defined.

(** When [doc.Close()] and [app.Quit()] succeed, the services
    [convert_to_pdf_com] initialises COM first and uninitialises it last
    on every path, also for an unsupported extension, and any failure
    leaves as [FileProcessingError] naming the file. *)
Theorem svc_convert_com_bracketed (env : com_env) (input_name file_ext : string) :
  close env = Ok tt -> quit env = Ok tt ->
  let r := svc_convert_to_pdf_com true env input_name file_ext init in
  (exists ev, trace (snd r) = EvCoInit :: List.app ev [EvCoUninit]) /\
  (fst r = Ok tt \/
   exists m, fst r = Raise (Exn "FileProcessingError" ("Failed to convert '" ++ input_name ++ "' via COM: " ++ m))).
Proof.
  intros Hc Hq; unfold svc_convert_to_pdf_com; simpl negb; cbv iota.
  destruct env as [cr v o sv ct cl q mk]; simpl in Hc, Hq; subst cl q.
  destruct (app_for file_ext) as [[]|];
    destruct cr as [[]|?], o as [[]|?], sv as [[]|?]; cbv;
    (split; [ match goal with |- exists ev, EvCoInit :: ?l = _ => exists (removelast l); reflexivity end
            | first [left; reflexivity | right; eexists; reflexivity]]).
Qed.

Lemma svc_convert_com_bracketed_witness :
  let r := svc_convert_to_pdf_com true (ComEnv (Ok tt) (Ok tt) (Raise com_err) (Ok tt) (Ok "") (Ok tt) (Ok tt) (Ok tt))
             "deck.pptx" ".pptx" init in
  (exists ev, trace (snd r) = EvCoInit :: List.app ev [EvCoUninit]) /\
  (fst r = Ok tt \/
   exists m, fst r = Raise (Exn "FileProcessingError" ("Failed to convert 'deck.pptx' via COM: " ++ m))).
Proof. apply svc_convert_com_bracketed; reflexivity. Defined.



End ExtraCom.

Module ExtraTask.
Import Json Tasks TaskFacts.

Lemma task_of_body sv i o subj key prov model f e f' msg :
  app_ai_conversion_body sv i o subj key prov model f = (Raise e, f') ->
  msg = "An error occurred during AI conversion: " ++ exn_msg e ->
  app_ai_conversion_task sv i o subj key prov model f = (Ok (Failed msg), f').
Proof. intros H ->; unfold app_ai_conversion_task; rewrite (try_raise _ _ _ _ _ H); reflexivity. Qed.

Lemma blank_not_truthy (t : string) :
  PyStr.truthy (PyStr.strip t) = false ->
  negb (PyStr.truthy t) || negb (PyStr.truthy (PyStr.strip t)) = true.
Proof. intros H; rewrite H, orb_true_r; reflexivity. Qed.

(** When the extracted text is empty or only whitespace, the app's
    [ai_conversion_task] returns the empty-text failure and leaves the
    files as the extraction left them: the AI is not called. *)
Theorem app_task_blank_text sv i o subj key prov model f text f1 :
  extract_by_suffix sv (Ai.lower (path_suffix i)) i f = (Ok text, f1) ->
  PyStr.truthy (PyStr.strip text) = false ->
  app_ai_conversion_task sv i o subj key prov model f
  = (Ok (Failed "An error occurred during AI conversion: Extracted text is empty. Cannot proceed with AI conversion."),
     f1).
Proof.
  intros Hx Ht. eapply task_of_body.
  unfold app_ai_conversion_body; cbv zeta. apply bind_raise.
  unfold app_extract_step; rewrite (bind_ok _ _ _ _ _ Hx), (blank_not_truthy _ Ht); reflexivity.
  reflexivity.
Qed.

Lemma app_task_blank_text_witness :
  app_ai_conversion_task (sv_with (" " ++ PyStr.nl ++ " ") (Ok (JObj [("markdown_content", JStr "# T")])) PyStr.nl)
    "in/a.pdf" "out/a.md" "General" "key" "gemini" (Some "m") []
  = (Ok (Failed "An error occurred during AI conversion: Extracted text is empty. Cannot proceed with AI conversion."),
     []).
Proof. apply (app_task_blank_text _ _ _ _ _ _ _ _ (" " ++ PyStr.nl ++ " ")); reflexivity. Defined.

(** A file whose lower-cased suffix is not [.doc], [.docx] or [.pdf] is
    refused by the app's [ai_conversion_task] with a failed result
    naming that suffix, before any service is called. *)
Theorem app_task_unsupported_suffix sv i o subj key prov model f :
  ~ In (Ai.lower (path_suffix i)) [".doc"; ".docx"; ".pdf"] ->
  app_ai_conversion_task sv i o subj key prov model f
  = (Ok (Failed ("An error occurred during AI conversion: Unsupported file type for AI conversion: "
                 ++ Ai.lower (path_suffix i))), f).
Proof.
  intros Hn. eapply task_of_body.
  unfold app_ai_conversion_body; cbv zeta. apply bind_raise.
  unfold app_extract_step. apply bind_raise. unfold extract_by_suffix.
  destruct (String.eqb_spec (Ai.lower (path_suffix i)) ".doc") as [E|_]; [exfalso; apply Hn; rewrite E; simpl; tauto|].
  destruct (String.eqb_spec (Ai.lower (path_suffix i)) ".docx") as [E|_]; [exfalso; apply Hn; rewrite E; simpl; tauto|].
  destruct (String.eqb_spec (Ai.lower (path_suffix i)) ".pdf") as [E|_]; [exfalso; apply Hn; rewrite E; simpl; tauto|].
  reflexivity.
  reflexivity.
Qed.

Lemma app_task_unsupported_suffix_witness :
  app_ai_conversion_task (sv_with "text" (Ok JNull) PyStr.nl) "in/Deck.PPTX" "out/Deck.md" "General" "key" "gemini" None []
  = (Ok (Failed ("An error occurred during AI conversion: Unsupported file type for AI conversion: "
                 ++ Ai.lower (path_suffix "in/Deck.PPTX"))), []).
Proof. apply app_task_unsupported_suffix. simpl; intuition discriminate. Defined.

Lemma resolve_model_missing sv prov model :
  (forall m, model = Some m -> m = "") ->
  (forall m, settings_attr sv (Ai.upper prov ++ "_MODEL_NAME") = Some m -> m = "") ->
  resolve_model sv prov model
  = Raise (value_error ("No default model name configured for provider '" ++ prov ++ "'.")).
Proof.
  intros Hm Hs; unfold resolve_model; cbv zeta.
  destruct model as [m|]; [rewrite (Hm m eq_refl); simpl|];
    (destruct (settings_attr sv _) as [m'|]; [rewrite (Hs m' eq_refl)|]); reflexivity.
Qed.

(** With no model name given (absent or empty) and no non-empty
    [<PROVIDER>_MODEL_NAME] setting, the app's [ai_conversion_task] fails
    after extraction, naming the provider as given, without calling the
    AI. *)
Theorem app_task_no_model sv i o subj key prov model f text f1 :
  extract_by_suffix sv (Ai.lower (path_suffix i)) i f = (Ok text, f1) ->
  PyStr.truthy (PyStr.strip text) = true ->
  (forall m, model = Some m -> m = "") ->
  (forall m, settings_attr sv (Ai.upper prov ++ "_MODEL_NAME") = Some m -> m = "") ->
  app_ai_conversion_task sv i o subj key prov model f
  = (Ok (Failed ("An error occurred during AI conversion: No default model name configured for provider '"
                 ++ prov ++ "'.")), f1).
Proof.
  intros Hx Ht Hm Hs. eapply task_of_body.
  unfold app_ai_conversion_body; cbv zeta.
  rewrite (bind_ok _ _ _ _ _ (app_extract_step_ok _ _ _ _ _ _ Hx Ht)).
  apply bind_raise. unfold app_ai_step. apply bind_raise. unfold lift.
  rewrite (resolve_model_missing sv prov model Hm Hs). reflexivity.
  reflexivity.
Qed.

Lemma app_task_no_model_witness :
  app_ai_conversion_task (sv_with "some text" (Ok JNull) PyStr.nl) "in/a.pdf" "out/a.md" "General" "key" "gemini"
    (Some "") []
  = (Ok (Failed ("An error occurred during AI conversion: No default model name configured for provider '"
                 ++ "gemini" ++ "'.")), []).
Proof.
  apply (app_task_no_model _ _ _ _ _ _ _ _ "some text"); try reflexivity.
  - intros m H; injection H as <-; reflexivity.
  - intros m H; discriminate.
Defined.

(** When the AI reply is a dict whose [markdown_content] is missing or
    falsy, the app's [ai_conversion_task] returns the empty-content
    failure with the files as the AI call left them: no output file is
    created. *)
Theorem app_task_empty_markdown sv i o subj key prov model f text f1 model' kvs f2 :
  extract_by_suffix sv (Ai.lower (path_suffix i)) i f = (Ok text, f1) ->
  PyStr.truthy (PyStr.strip text) = true ->
  resolve_model sv prov model = Ok model' ->
  ai_generate sv prov model' key text subj (Ai.upper (Ai.lower (path_suffix i))) f1 = (Ok (JObj kvs), f2) ->
  match lookup kvs "markdown_content" with Some v => Json.truthy v | None => false end = false ->
  app_ai_conversion_task sv i o subj key prov model f
  = (Ok (Failed "An error occurred during AI conversion: AI returned an empty markdown content."), f2).
Proof.
  intros Hx Ht Hm Hg Hc. eapply task_of_body.
  rewrite (app_body_after_ai _ _ _ _ _ _ _ _ _ _ _ _ _ Hx Ht Hm Hg).
  unfold app_save_step, bind, lift, dict_get.
  destruct (lookup kvs "markdown_content") as [v|]; simpl in Hc |- *; rewrite ?Hc; reflexivity.
  reflexivity.
Qed.

Lemma app_task_empty_markdown_witness :
  app_ai_conversion_task (sv_with "some text" (Ok (JObj [("markdown_content", JStr ""); ("warnings", JArr [])])) PyStr.nl)
    "in/a.pdf" "out/a.md" "General" "key" "gemini" (Some "m") []
  = (Ok (Failed "An error occurred during AI conversion: AI returned an empty markdown content."), []).
Proof.
  apply (app_task_empty_markdown _ _ _ _ _ _ _ _ "some text" [] "m"
           [("markdown_content", JStr ""); ("warnings", JArr [])]); reflexivity.
Defined.

End ExtraTask.

Module ExtraUpload.
Import Tasks Upload.

Lemma ext_rejected_unlisted (task_type ext : string) :
  TASK_TO_EXTENSIONS task_type = None -> str_contains "doc_to_markdown" task_type = false ->
  ext_rejected task_type ext = true.
Proof. intros H1 H2; unfold ext_rejected, allowed_extensions; rewrite H1, H2; reflexivity. Qed.

Lemma existsb_eqb_in (x : string) (l : list string) : existsb (String.eqb x) l = true -> In x l.
Proof.
  intros H; apply existsb_exists in H; destruct H as (y & Hy & E).
  apply String.eqb_eq in E; subst y; exact Hy.
Qed.

Lemma mkdir_exist_ok_spec (p : string) (s : upload_state) :
  fst (mkdir_exist_ok p s) = Ok tt /\ In p (dirs (snd (mkdir_exist_ok p s))) /\
  (forall d, In d (dirs s) -> In d (dirs (snd (mkdir_exist_ok p s)))) /\
  files (snd (mkdir_exist_ok p s)) = files s /\ sent (snd (mkdir_exist_ok p s)) = sent s.
Proof.
  unfold mkdir_exist_ok; simpl.
  destruct (existsb (String.eqb p) (dirs s)) eqn:E; simpl;
    [apply existsb_eqb_in in E|]; intuition.
Qed.

(** The Flask [upload_and_process] refuses every upload, whatever its
    extension, for the task types [pdf_to_markdown] and
    [docx_to_markdown] (the names the FastAPI front end uses): neither is
    in [TASK_TO_EXTENSIONS] nor contains [doc_to_markdown].  Nothing is
    created or saved. *)
Theorem flask_refuses_pdf_docx_markdown (secure_filename : string -> string) (req_id : string)
    (run_conversion : string -> string -> string -> UM response) (filename task_type : string) (s : upload_state) :
  filename <> "" -> In task_type ["pdf_to_markdown"; "docx_to_markdown"] ->
  upload_and_process secure_filename req_id run_conversion true filename task_type s
  = (Ok (Reply 400 "error" ("File type mismatch: Task '" ++ task_type ++ "' doesn't support '"
                            ++ Ai.lower (path_suffix filename) ++ "' files.")), s).
Proof.
  intros Hf Ht. unfold upload_and_process; cbv zeta.
  apply String.eqb_neq in Hf; rewrite Hf.
  assert (Hr : ext_rejected task_type (Ai.lower (path_suffix filename)) = true).
  { destruct Ht as [<-|[<-|[]]]; apply ext_rejected_unlisted; reflexivity. }
  assert (Hy : PyStr.truthy task_type = true) by (destruct Ht as [<-|[<-|[]]]; reflexivity).
  rewrite Hy, Hr; reflexivity.
Qed.

Lemma flask_refuses_pdf_docx_markdown_witness :
  upload_and_process (fun x => x) "r1" (fun _ _ _ => ret (Reply 200 "success" "")) true "report.pdf"
    "pdf_to_markdown" empty_state
  = (Ok (Reply 400 "error" ("File type mismatch: Task '" ++ "pdf_to_markdown" ++ "' doesn't support '"
                            ++ Ai.lower (path_suffix "report.pdf") ++ "' files.")), empty_state).
Proof. apply flask_refuses_pdf_docx_markdown; [discriminate | simpl; tauto]. Defined.

(** An upload the Flask check accepts is saved as
    [temp_files/<req_id>/<safe stem><lower-cased extension>], where the
    safe stem is [secure_filename] of the original stem or [file] when
    that is empty, after both the temporary and the output directory
    exist; the conversion then runs on exactly these paths. *)
Theorem flask_accepted_upload (secure_filename : string -> string) (req_id : string)
    (run_conversion : string -> string -> string -> UM response) (filename task_type : string) (s : upload_state) :
  filename <> "" -> PyStr.truthy task_type = true ->
  ext_rejected task_type (Ai.lower (path_suffix filename)) = false ->
  let input_path := "temp_files/" ++ req_id ++ "/" ++ PyStr.or_str (secure_filename (path_stem filename)) "file"
                    ++ Ai.lower (path_suffix filename) in
  exists s1,
    upload_and_process secure_filename req_id run_conversion true filename task_type s
    = run_conversion task_type input_path ("output_files/" ++ req_id) s1 /\
    files s1 = input_path :: files s /\ sent s1 = sent s /\
    In ("temp_files/" ++ req_id) (dirs s1) /\ In ("output_files/" ++ req_id) (dirs s1) /\
    (forall d, In d (dirs s) -> In d (dirs s1)).
Proof.
  intros Hf Ht Hr input_path. unfold upload_and_process; cbv zeta.
  apply String.eqb_neq in Hf; rewrite Hf, Ht, Hr; simpl negb; simpl orb; cbv iota.
  unfold bind, mkdir_exist_ok, save_file.
  exists (snd (save_file input_path (snd (mkdir_exist_ok ("output_files/" ++ req_id)
                                         (snd (mkdir_exist_ok ("temp_files/" ++ req_id) s)))))).
  split; [reflexivity|].
  destruct (mkdir_exist_ok_spec ("temp_files/" ++ req_id) s) as (_ & Ht1 & Hd1 & Hf1 & Hs1).
  destruct (mkdir_exist_ok_spec ("output_files/" ++ req_id) (snd (mkdir_exist_ok ("temp_files/" ++ req_id) s)))
    as (_ & Ho2 & Hd2 & Hf2 & Hs2).
  unfold save_file; cbn [snd files dirs sent]; rewrite Hf2, Hf1, Hs2, Hs1; repeat split; auto.
Qed.

Lemma flask_accepted_upload_witness :
  exists s1,
    upload_and_process (fun _ => "") "r1" (fun _ _ _ => ret (Reply 200 "success" "")) true "My Deck.PPTX"
      "ppt_to_pdf" empty_state
    = (fun (_ _ _ : string) => ret (Reply 200 "success" "")) "ppt_to_pdf"
        ("temp_files/" ++ "r1" ++ "/" ++ PyStr.or_str ((fun _ => "") (path_stem "My Deck.PPTX")) "file"
         ++ Ai.lower (path_suffix "My Deck.PPTX")) ("output_files/" ++ "r1") s1 /\
    files s1 = ("temp_files/" ++ "r1" ++ "/" ++ PyStr.or_str ((fun _ => "") (path_stem "My Deck.PPTX")) "file"
                ++ Ai.lower (path_suffix "My Deck.PPTX")) :: files empty_state /\
    sent s1 = sent empty_state /\
    In ("temp_files/" ++ "r1") (dirs s1) /\ In ("output_files/" ++ "r1") (dirs s1) /\
    (forall d, In d (dirs empty_state) -> In d (dirs s1)).
Proof.
  apply (flask_accepted_upload (fun _ => "") "r1" (fun _ _ _ => ret (Reply 200 "success" ""))
           "My Deck.PPTX" "ppt_to_pdf" empty_state); [discriminate | reflexivity | reflexivity].
Defined.

(** backend/main.py [upload_and_dispatch] saves the upload and creates
    the output directory before it looks at the task type: an unknown
    task type, or an AI task type whose provider key or model is not
    configured, is answered with a 400 error after both directories and
    the file exist, and no task is sent. *)
Theorem main_error_after_side_effects (config : string -> option string) (req_id task_id filename task_type : string)
    (subject : option string) (s : upload_state) :
  PyStr.truthy task_type = true ->
  existsb (String.eqb ("temp_files/" ++ req_id)) (dirs s) = false ->
  existsb (String.eqb ("output_files/" ++ req_id)) (dirs s) = false ->
  let provider_name := match config "AI_PROVIDER" with Some p => p | None => "gemini" end in
  let s' := UploadState (("output_files/" ++ req_id) :: ("temp_files/" ++ req_id) :: dirs s)
                        (("temp_files/" ++ req_id ++ "/" ++ filename) :: files s) (sent s) in
  (~ In task_type ["ppt_to_pdf"; "doc_to_markdown"; "docx_to_markdown"; "pdf_to_markdown"] ->
   upload_and_dispatch config req_id task_id (Some filename) task_type subject s
   = (Raise (http_exception "400" "Unknown task type."), s')) /\
  (In task_type ["doc_to_markdown"; "docx_to_markdown"; "pdf_to_markdown"] ->
   (forall k m, config (Ai.upper provider_name ++ "_API_KEY") = Some k ->
                config (Ai.upper provider_name ++ "_MODEL_NAME") = Some m ->
                PyStr.truthy k && PyStr.truthy m = false) ->
   upload_and_dispatch config req_id task_id (Some filename) task_type subject s
   = (Raise (http_exception "400" "AI Provider not configured in .env"), s')).
Proof.
  intros Ht H1 H2 provider_name s'.
  assert (Hpre : forall (k : string * list string -> UM response),
             (mkdir_new ("temp_files/" ++ req_id) ;;; save_file ("temp_files/" ++ req_id ++ "/" ++ filename) ;;;
              mkdir_new ("output_files/" ++ req_id) ;;; (fun s0 => k ("", []) s0)) s
             = k ("", []) s').
  { intros k. unfold bind, mkdir_new, save_file. rewrite H1; cbv beta iota; cbn [dirs files sent existsb].
    replace (String.eqb ("output_files/" ++ req_id) ("temp_files/" ++ req_id)) with false by reflexivity.
    rewrite H2; reflexivity. }
  unfold upload_and_dispatch; rewrite Ht; simpl negb; cbv iota zeta.
  split.
  - intros Hn.
    destruct (String.eqb_spec task_type "ppt_to_pdf") as [E|_]; [exfalso; apply Hn; rewrite E; simpl; tauto|].
    replace (existsb (String.eqb task_type) ["doc_to_markdown"; "docx_to_markdown"; "pdf_to_markdown"]) with false.
    2:{ symmetry; apply Bool.not_true_iff_false; intros Hx; apply existsb_exists in Hx.
        destruct Hx as (x & Hx & Ex); apply String.eqb_eq in Ex; subst x; apply Hn; simpl in *; tauto. }
    exact (Hpre (fun _ => raise (http_exception "400" "Unknown task type."))).
  - intros Hi Hc.
    replace (String.eqb task_type "ppt_to_pdf") with false
      by (destruct Hi as [<-|[<-|[<-|[]]]]; reflexivity).
    replace (existsb (String.eqb task_type) ["doc_to_markdown"; "docx_to_markdown"; "pdf_to_markdown"]) with true
      by (destruct Hi as [<-|[<-|[<-|[]]]]; reflexivity).
    fold provider_name.
    destruct (config (Ai.upper provider_name ++ "_API_KEY")) as [k|] eqn:Ek;
      destruct (config (Ai.upper provider_name ++ "_MODEL_NAME")) as [m|] eqn:Em;
      try exact (Hpre (fun _ => raise (http_exception "400" "AI Provider not configured in .env"))).
    rewrite (Hc k m eq_refl eq_refl).
    exact (Hpre (fun _ => raise (http_exception "400" "AI Provider not configured in .env"))).
Qed.

Lemma main_error_after_side_effects_witness :
  upload_and_dispatch (fun _ => None) "r1" "t1" (Some "a.pdf") "translate" None empty_state
  = (Raise (http_exception "400" "Unknown task type."),
     UploadState ["output_files/r1"; "temp_files/r1"] ["temp_files/r1/a.pdf"] []) /\
  upload_and_dispatch (fun _ => None) "r1" "t1" (Some "a.pdf") "pdf_to_markdown" None empty_state
  = (Raise (http_exception "400" "AI Provider not configured in .env"),
     UploadState ["output_files/r1"; "temp_files/r1"] ["temp_files/r1/a.pdf"] []).
Proof.
  destruct (main_error_after_side_effects (fun _ => None) "r1" "t1" "a.pdf" "translate" None empty_state)
    as [HU _]; [reflexivity | reflexivity | reflexivity |].
  destruct (main_error_after_side_effects (fun _ => None) "r1" "t1" "a.pdf" "pdf_to_markdown" None empty_state)
    as [_ HA]; [reflexivity | reflexivity | reflexivity |].
  split.
  - apply HU. simpl; intuition discriminate.
  - apply HA; [simpl; tauto | intros k m Hk; discriminate].
Defined.

End ExtraUpload.

Module ExtraStatus.
Import Json Tasks TaskFacts Status AppMain.

Lemma make_response_ok (task_id st : string) (r : option json) (x : task_status_response) :
  make_response task_id st r = Ok x -> x = TaskStatusResponse task_id st r.
Proof.
  unfold make_response; destruct (existsb _ _); [intros H; injection H as <-; reflexivity | discriminate].
Qed.

(** The status a task run is reported with by backend/app/main.py
    [get_task_status] once the result backend holds its dict. *)
Lemma status_of_result (v : task_result) (task_id : string) (b : celery_backend) :
  app_get_task_status ((task_id, celery_outcome (Ok v)) :: b) task_id
  = Ok (TaskStatusResponse task_id "success"
          (Some (JObj [("output_file_url",
                        JStr ("/downloads/" ++ task_id ++ "/"
                              ++ match v with
                                 | Success _ op _ => string_of_list_ascii (path_name op)
                                 | Failed _ => "" end));
                       ("message", JStr (match v with Success m _ _ => m | Failed m => m end));
                       ("warnings", match v with Success _ _ (Some w) => w | _ => JArr [] end)]))).
Proof.
  unfold app_get_task_status, async_result; simpl assoc; rewrite String.eqb_refl.
  destruct v as [m op [w|]|m]; reflexivity.
Qed.

Lemma status_of_raise (e : exn) (task_id : string) (b : celery_backend) :
  app_get_task_status ((task_id, celery_outcome (Raise e)) :: b) task_id
  = Ok (TaskStatusResponse task_id "failed" (Some (JObj [("error_message", JStr (exn_msg e))]))).
Proof. unfold app_get_task_status, async_result; simpl assoc; rewrite String.eqb_refl; reflexivity. Qed.

(** backend/app/main.py [get_task_status] never reports [pending]: an
    answer carries the asked id and one of [in_progress], [success] and
    [failed]; a revoked task makes the response model itself fail with
    [ValidationError]. *)
Theorem app_status_values (b : celery_backend) (task_id : string) :
  (forall r, app_get_task_status b task_id = Ok r ->
     id r = task_id /\ In (status r) ["in_progress"; "success"; "failed"]) /\
  (async_result b task_id = REVOKED ->
     exists e, app_get_task_status b task_id = Raise e /\ exn_class e = "ValidationError").
Proof.
  unfold app_get_task_status. destruct (async_result b task_id) as [| | | |j|info]; cbv zeta;
    (split; [intros r H | intros Hst; try discriminate]).
  - apply make_response_ok in H; subst r; simpl; tauto.
  - apply make_response_ok in H; subst r; simpl; tauto.
  - apply make_response_ok in H; subst r; simpl; tauto.
  - discriminate.
  - eexists; split; reflexivity.
  - unfold rbind in H.
    destruct (dict_get j "output_path" (JStr "")) as [op|e]; [|discriminate].
    destruct op; try discriminate.
    destruct (dict_get j "message" JNull) as [msg|e]; [|discriminate].
    destruct (dict_get j "warnings" (JArr [])) as [w|e]; [|discriminate].
    apply make_response_ok in H; subst r; simpl; tauto.
  - apply make_response_ok in H; subst r; simpl; tauto.
Qed.

Lemma app_status_values_witness :
  (forall r, app_get_task_status [("t1", STARTED)] "t1" = Ok r ->
     id r = "t1" /\ In (status r) ["in_progress"; "success"; "failed"]) /\
  (async_result [("t1", REVOKED)] "t1" = REVOKED ->
     exists e, app_get_task_status [("t1", REVOKED)] "t1" = Raise e /\ exn_class e = "ValidationError").
Proof.
  split.
  - apply (proj1 (app_status_values [("t1", STARTED)] "t1")).
  - apply (proj2 (app_status_values [("t1", REVOKED)] "t1")).
Defined.

(** Every run of the app tasks [ai_conversion_task] and [ppt_to_pdf_task]
    is reported as [success] by backend/app/main.py [get_task_status],
    including the runs whose returned dict says the conversion failed:
    such a run is reported with the failure message and the download URL
    [/downloads/<task_id>/]. *)
Theorem app_runs_reported_success (sv : services) (i o subj key prov : string) (model : option string)
    (f : fs) (task_id : string) (b : celery_backend) :
  (exists r, app_get_task_status
               ((task_id, celery_outcome (fst (app_ai_conversion_task sv i o subj key prov model f))) :: b) task_id
             = Ok r /\ status r = "success") /\
  (exists r, app_get_task_status ((task_id, celery_outcome (fst (app_ppt_to_pdf_task sv i o f))) :: b) task_id
             = Ok r /\ status r = "success") /\
  (forall m, app_get_task_status ((task_id, celery_outcome (Ok (Failed m))) :: b) task_id
             = Ok (TaskStatusResponse task_id "success"
                     (Some (JObj [("output_file_url", JStr ("/downloads/" ++ task_id ++ "/"));
                                  ("message", JStr m); ("warnings", JArr [])])))).
Proof.
  split; [|split].
  - destruct (app_ai_task_returns sv i o subj key prov model f) as (r & Hr & _).
    rewrite Hr, status_of_result; eexists; split; reflexivity.
  - destruct (app_ppt_task_returns sv i o f) as (r & Hr & _).
    rewrite Hr, status_of_result; eexists; split; reflexivity.
  - intros m; rewrite status_of_result; reflexivity.
Qed.

(** End to end, each front with its own AI service: an app
    [ai_conversion_task] run is reported by backend/app/main.py as
    [success] with a failure message and the download URL
    [/downloads/<task_id>/], and a worker.py [ai_conversion_task] run is
    reported as [failed]. *)
Theorem ai_runs_as_reported (sv : services) (le : Ai.llm_env) (loads : string -> option json)
    (sle : SvcAi.llm_env) (sloads : string -> res json)
    (i o subj key prov model : string) (f : fs) (task_id : string) (b : celery_backend) :
  (exists m, app_get_task_status
               ((task_id, celery_outcome
                            (fst (app_ai_conversion_task (with_ai sv (Ai.ai_generate le loads))
                                    i o subj key prov (Some model) f))) :: b) task_id
             = Ok (TaskStatusResponse task_id "success"
                     (Some (JObj [("output_file_url", JStr ("/downloads/" ++ task_id ++ "/"));
                                  ("message", JStr ("An error occurred during AI conversion: " ++ m));
                                  ("warnings", JArr [])])))) /\
  (exists m, app_get_task_status
               ((task_id, celery_outcome
                            (fst (worker_ai_conversion_task (with_ai sv (SvcAi.ai_generate sle sloads))
                                    i o subj prov key model f))) :: b) task_id
             = Ok (TaskStatusResponse task_id "failed" (Some (JObj [("error_message", JStr m)])))).
Proof.
  split.
  - destruct (ExtraAi.app_ai_task_fails sv le loads i o subj key prov (Some model) f) as [m Hm].
    exists m; rewrite Hm, status_of_result; reflexivity.
  - destruct (ExtraAi.worker_ai_task_raises sv sle sloads i o subj prov key model f) as [e He].
    exists (exn_msg e); rewrite He, status_of_raise; reflexivity.
Qed.

Lemma forallb_is_jstr_map (ws : list string) : forallb is_jstr (map JStr ws) = true.
Proof. induction ws as [|w ws IH]; [reflexivity|exact IH]. Qed.

Lemma forallb_is_jstr_app_num (ws : list string) (n : Z) :
  forallb is_jstr (map JStr ws ++ [JNum n]) = false.
Proof. induction ws as [|w ws IH]; [reflexivity|exact IH]. Qed.

(** backend/main.py [get_status] answers only [success] or [failed]:
    for a task that has not finished (pending, started, retried or
    revoked), and for an id Celery never saw, it returns the upper-case
    Celery state, which [TaskStatusResponse] refuses. *)
Theorem main_status_terminal_only (b : celery_backend) (task_id : string) :
  (forall r, main_get_status b task_id = Ok r -> status r = "success" \/ status r = "failed") /\
  match async_result b task_id with
  | SUCCESS _ | FAILURE _ => True
  | _ => main_get_status b task_id
         = Raise (Exn "ValidationError" "Input should be 'pending', 'in_progress', 'success' or 'failed'")
  end.
Proof.
  unfold main_get_status.
  destruct (async_result b task_id) as [| | | |r|info]; split; try exact I; try reflexivity;
    try (intros x Hx; vm_compute in Hx; discriminate Hx).
  - intros x Hx.
    destruct (main_success_result r) as [r'|e]; [|discriminate]; cbn [rbind] in Hx.
    destruct (validate_status_result r') as [v|e]; [|discriminate]; cbn [rbind] in Hx.
    apply make_response_ok in Hx; subst x; left; reflexivity.
  - intros x Hx; cbn [rbind validate_status_result] in Hx.
    apply make_response_ok in Hx; subst x; right; reflexivity.
Qed.

(** A successful task that returned [{status, message, output_path}] (as
    the worker.py [ppt_to_pdf_task] does) is answered by backend/main.py
    [get_status] with [output_file_url]
    [/api/v1/downloads/<parent directory name>/<file name>] of its output
    path and its message.  Warnings given as a list of strings are passed
    on; a list holding a number makes the response invalid. *)
Theorem main_status_of_success (task_id : string) (b : celery_backend) (m op : string)
    (ws : list string) (n : Z) :
  let url := JStr ("/api/v1/downloads/" ++ path_parent_name op ++ "/" ++ string_of_list_ascii (path_name op)) in
  main_get_status ((task_id, celery_outcome (Ok (Success m op None))) :: b) task_id
  = Ok (TaskStatusResponse task_id "success"
          (Some (JObj [("output_file_url", url); ("message", JStr m); ("warnings", JNull);
                       ("error_message", JNull)]))) /\
  main_get_status ((task_id, celery_outcome (Ok (Success m op (Some (JArr (map JStr ws)))))) :: b) task_id
  = Ok (TaskStatusResponse task_id "success"
          (Some (JObj [("output_file_url", url); ("message", JStr m); ("warnings", JArr (map JStr ws));
                       ("error_message", JNull)]))) /\
  main_get_status ((task_id, celery_outcome (Ok (Success m op (Some (JArr (map JStr ws ++ [JNum n])))))) :: b)
    task_id
  = Raise (Exn "ValidationError" "Input should be a valid string").
Proof.
  intros url; unfold main_get_status, async_result; cbn [assoc]; rewrite String.eqb_refl.
  split; [reflexivity|split].
  - simpl; rewrite forallb_is_jstr_map; reflexivity.
  - simpl; rewrite forallb_is_jstr_app_num; reflexivity.
Qed.

End ExtraStatus.

Module ExtraAppMain.
Import Json Tasks TaskFacts Upload AppMain.

(** backend/app/main.py passes the provider name where
    [ai_conversion_task] expects the API key and the API key where it
    expects the provider name.  For an AI task type with a configured key
    and model it dispatches [(input, output, subject, AI_PROVIDER, key,
    model)]; run with the app's AI service on a readable file, that call
    fails with the lower-cased API key in its message, unless the key
    happens to read as a provider name. *)
Theorem app_main_swaps_key_and_provider (settings_attr' : string -> option string)
    (AI_PROVIDER TEMP_FILE_DIR OUTPUT_FILE_DIR request_id task_id filename task_type : string)
    (subject : option string) (s : app_state) (K Mdl : string) :
  In task_type ["doc_to_markdown"; "docx_to_markdown"; "pdf_to_markdown"] ->
  settings_attr' (Ai.upper AI_PROVIDER ++ "_API_KEY") = Some K -> PyStr.truthy K = true ->
  settings_attr' (Ai.upper AI_PROVIDER ++ "_MODEL_NAME") = Some Mdl ->
  let input_path := (TEMP_FILE_DIR ++ "/" ++ request_id) ++ "/" ++ filename in
  let call := AiConversion input_path ((OUTPUT_FILE_DIR ++ "/" ++ request_id) ++ "/" ++ path_stem input_path ++ ".md")
                (match subject with Some x => x | None => "General" end) AI_PROVIDER K (Some Mdl) in
  (exists s', upload_and_dispatch_task settings_attr' AI_PROVIDER TEMP_FILE_DIR OUTPUT_FILE_DIR request_id task_id
                (Some filename) task_type subject s = (Ok (Accepted task_id), s') /\
              a_calls s' = call :: a_calls s) /\
  (forall sv le loads f text f1,
     extract_by_suffix sv (Ai.lower (path_suffix input_path)) input_path f = (Ok text, f1) ->
     PyStr.truthy (PyStr.strip text) = true -> PyStr.truthy Mdl = true ->
     ~ In (Ai.lower K) ["gemini"; "openai"] ->
     run_call (with_ai sv (Ai.ai_generate le loads)) call f
     = (Ok (Failed ("An error occurred during AI conversion: Unsupported AI provider: '" ++ Ai.lower K ++ "'")), f1)).
Proof.
  intros Ht HK HKt HM input_path call. split.
  - exists (snd (delay call (snd (a_mkdir (OUTPUT_FILE_DIR ++ "/" ++ request_id)
                                 (snd (a_save input_path (snd (a_mkdir (TEMP_FILE_DIR ++ "/" ++ request_id) s)))))))).
    split.
    + unfold upload_and_dispatch_task.
      destruct Ht as [<-|[<-|[<-|[]]]]; cbv zeta; rewrite HK, HKt, HM; reflexivity.
    + unfold delay at 1; cbn [snd a_calls].
      unfold a_mkdir, a_save; cbn [snd].
      destruct (existsb _ (a_dirs s)); cbn [a_calls];
        destruct (existsb _ _); reflexivity.
  - intros sv le loads f text f1 Hx Htx HMt Hn.
    set (sv' := with_ai sv (Ai.ai_generate le loads)).
    unfold call, run_call. eapply ExtraTask.task_of_body.
    + assert (Hx' : extract_by_suffix sv' (Ai.lower (path_suffix input_path)) input_path f = (Ok text, f1)) by exact Hx.
      assert (Hm : resolve_model sv' K (Some Mdl) = Ok Mdl) by (unfold resolve_model; rewrite HMt; reflexivity).
      assert (Hg : ai_generate sv' K Mdl AI_PROVIDER text (match subject with Some x => x | None => "General" end)
                     (Ai.upper (Ai.lower (path_suffix input_path))) f1
                   = (Raise (Exn "ValueError" ("Unsupported AI provider: '" ++ Ai.lower K ++ "'")), f1)).
      { unfold sv', with_ai, lift; cbn [ai_generate]. unfold Ai.ai_generate, Ai.get_ai_provider; cbv zeta.
        destruct (String.eqb_spec (Ai.lower K) "gemini") as [E|_]; [exfalso; apply Hn; rewrite E; simpl; tauto|].
        destruct (String.eqb_spec (Ai.lower K) "openai") as [E|_]; [exfalso; apply Hn; rewrite E; simpl; tauto|].
        reflexivity. }
      rewrite (app_body_after_ai _ _ _ _ _ _ _ _ _ _ _ _ _ Hx' Htx Hm Hg). reflexivity.
    + reflexivity.
Qed.

Lemma app_main_swaps_key_and_provider_witness :
  let settings_attr' := fun n => if String.eqb n "GEMINI_API_KEY" then Some "sk-SECRET"
                                 else if String.eqb n "GEMINI_MODEL_NAME" then Some "gemini-pro" else None in
  let call := AiConversion (("tmp" ++ "/" ++ "r1") ++ "/" ++ "a.pdf")
                (("out" ++ "/" ++ "r1") ++ "/" ++ path_stem (("tmp" ++ "/" ++ "r1") ++ "/" ++ "a.pdf") ++ ".md")
                "General" "gemini" "sk-SECRET" (Some "gemini-pro") in
  (exists s', upload_and_dispatch_task settings_attr' "gemini" "tmp" "out" "r1" "t1" (Some "a.pdf") "pdf_to_markdown"
                None app_empty = (Ok (Accepted "t1"), s') /\ a_calls s' = [call]) /\
  run_call (with_ai (sv_with "some text" (Ok JNull) PyStr.nl)
              (Ai.ai_generate (Ai.LlmEnv true true (fun _ => Raise (Exn "Error" "offline"))
                                 (fun _ => Raise (Exn "Error" "offline"))) json_loads)) call []
  = (Ok (Failed ("An error occurred during AI conversion: Unsupported AI provider: '" ++ Ai.lower "sk-SECRET" ++ "'")), []).
Proof.
  intros settings_attr' call.
  destruct (app_main_swaps_key_and_provider settings_attr' "gemini" "tmp" "out" "r1" "t1" "a.pdf" "pdf_to_markdown"
              None app_empty "sk-SECRET" "gemini-pro") as [H1 H2];
    [simpl; tauto | reflexivity | reflexivity | reflexivity |].
  split; [exact H1|].
  apply (H2 (sv_with "some text" (Ok JNull) PyStr.nl) _ _ [] "some text"); [reflexivity | reflexivity | reflexivity |].
  vm_compute; intros [H|[H|[]]]; discriminate.
Defined.

End ExtraAppMain.

Module ExtraRouter.
Import Json Tasks TaskFacts Upload Status Router.

(** What [upload_and_convert_file] leaves once the upload is saved: the
    final entry, built from the outcome of the conversion block, hides
    the [in_progress] one. *)
Lemma router_saved (sv : services) (ai : ai_call) (AI_PROVIDER TEMP_FILE_DIR OUTPUT_FILE_DIR : string)
    (task_id task_type subject filename data : string) (st : router_state) :
  let input_path := (TEMP_FILE_DIR ++ "/" ++ task_id) ++ "/" ++ filename in
  mkdir_parents sv input_path = Ok tt -> open_for_write sv input_path = Ok tt ->
  let b := router_body sv ai AI_PROVIDER OUTPUT_FILE_DIR task_id task_type subject input_path
             (fs_write input_path data (rfs st)) in
  let failed := fun e => TaskStatusResponse task_id "failed"
                           (Some (JObj [("error_message", JStr (exn_msg e)); ("source_filename", JStr filename)])) in
  upload_and_convert_file sv ai AI_PROVIDER TEMP_FILE_DIR OUTPUT_FILE_DIR task_id task_type subject filename data st
  = (Ok task_id,
     RouterState
       ((task_id,
         match fst b with
         | Ok p =>
             match dict_get (snd p) "warnings" (JArr []) with
             | Ok w => TaskStatusResponse task_id "success"
                         (Some (JObj [("output_file_url",
                                       JStr ("/downloads/" ++ task_id ++ "/" ++ string_of_list_ascii (path_name (fst p))));
                                      ("source_filename", JStr filename); ("warnings", w)]))
             | Raise e => failed e
             end
         | Raise e => failed e
         end) :: (task_id, TaskStatusResponse task_id "in_progress" None) :: db st)
       (snd b)).
Proof.
  intros input_path Hm Ho b failed.
  unfold upload_and_convert_file; cbv zeta; fold input_path.
  unfold try_except at 1, bind at 1 2 3, on_fs at 1, bind at 1 2, lift at 1 2; rewrite Hm, Ho.
  cbn [fst snd rfs db].
  unfold db_set at 1, try_except, bind, on_fs, lift, ret, db_set; cbn [rfs db].
  fold b. destruct b as [[[op sr]|e] f']; cbn [fst snd]; [|reflexivity].
  destruct (dict_get sr "warnings" (JArr [])); reflexivity.
Qed.

(** After an upload whose file is saved, [get_task_status] of the new
    task id answers that id with [success] or [failed], never
    [in_progress]: the router converts synchronously before it returns.
    The entries of the other ids are unchanged. *)
Theorem router_status_round_trip (sv : services) (ai : ai_call) (AI_PROVIDER TEMP_FILE_DIR OUTPUT_FILE_DIR : string)
    (task_id task_type subject filename data : string) (st : router_state) :
  mkdir_parents sv ((TEMP_FILE_DIR ++ "/" ++ task_id) ++ "/" ++ filename) = Ok tt ->
  open_for_write sv ((TEMP_FILE_DIR ++ "/" ++ task_id) ++ "/" ++ filename) = Ok tt ->
  exists st',
    upload_and_convert_file sv ai AI_PROVIDER TEMP_FILE_DIR OUTPUT_FILE_DIR task_id task_type subject filename data st
    = (Ok task_id, st') /\
    (exists r, router_get_task_status (db st') task_id = Ok r /\ id r = task_id /\
               In (status r) ["success"; "failed"]) /\
    (forall other, other <> task_id -> router_get_task_status (db st') other = router_get_task_status (db st) other).
Proof.
  intros Hm Ho. rewrite (router_saved sv ai AI_PROVIDER TEMP_FILE_DIR OUTPUT_FILE_DIR task_id task_type subject
                           filename data st Hm Ho).
  eexists; split; [reflexivity|]. split.
  - unfold router_get_task_status; cbn [db assoc]; rewrite String.eqb_refl.
    eexists; split; [reflexivity|].
    match goal with |- context [match fst ?b with _ => _ end] => destruct (fst b) as [[op sr]|e] end;
      [cbn [fst snd]; destruct (dict_get sr "warnings" (JArr []))|]; cbn [id status In]; tauto.
  - intros other Hne. unfold router_get_task_status; cbn [db assoc].
    apply String.eqb_neq in Hne; rewrite Hne; reflexivity.
Qed.

Lemma router_status_round_trip_witness :
  exists st',
    upload_and_convert_file (sv_with "text" (Ok JNull) PyStr.nl) (fun _ _ _ _ _ _ => Ok JNull) "gemini" "tmp" "out"
      "id1" "ppt_to_pdf" "General" "deck.pptx" "bytes" (RouterState [] [])
    = (Ok "id1", st') /\
    (exists r, router_get_task_status (db st') "id1" = Ok r /\ id r = "id1" /\
               In (status r) ["success"; "failed"]) /\
    (forall other, other <> "id1" -> router_get_task_status (db st') other = router_get_task_status (db (RouterState [] [])) other).
Proof. apply router_status_round_trip; reflexivity. Defined.

(** If the upload cannot be saved (the temporary directory cannot be
    created or the file cannot be opened), [upload_and_convert_file]
    raises [HTTPException] 500 and records nothing. *)
Theorem router_save_failure (sv : services) (ai : ai_call) (AI_PROVIDER TEMP_FILE_DIR OUTPUT_FILE_DIR : string)
    (task_id task_type subject filename data : string) (st : router_state) :
  (exists e, mkdir_parents sv ((TEMP_FILE_DIR ++ "/" ++ task_id) ++ "/" ++ filename) = Raise e) \/
  (exists e, open_for_write sv ((TEMP_FILE_DIR ++ "/" ++ task_id) ++ "/" ++ filename) = Raise e) ->
  upload_and_convert_file sv ai AI_PROVIDER TEMP_FILE_DIR OUTPUT_FILE_DIR task_id task_type subject filename data st
  = (Raise (http_exception "500" "Could not save file."), st).
Proof.
  intros H. destruct st as [d f].
  unfold upload_and_convert_file; cbv zeta.
  unfold try_except at 1, bind at 1 2 3, on_fs at 1, bind at 1 2, lift at 1 2; cbn [rfs db].
  destruct H as [[e He]|[e He]]; rewrite He; [reflexivity|].
  destruct (mkdir_parents sv _) as [[]|e']; reflexivity.
Qed.

Lemma router_save_failure_witness :
  upload_and_convert_file (sv_failing (Exn "PermissionError" "denied")) (fun _ _ _ _ _ _ => Ok JNull) "gemini" "tmp" "out"
    "id1" "ppt_to_pdf" "General" "deck.pptx" "bytes" (RouterState [] [])
  = (Raise (http_exception "500" "Could not save file."), RouterState [] []).
Proof. apply router_save_failure. left; eexists; reflexivity. Defined.

(** Once the upload is saved, [upload_and_convert_file] records a
    failed task: for an unknown task type, with the message naming it
    and the saved upload as the only file written; and for the AI task types
    whenever the AI service raises on every input, as the app's AI
    service does. *)
Theorem router_failed_outcomes (sv : services) (ai : ai_call) (AI_PROVIDER TEMP_FILE_DIR OUTPUT_FILE_DIR : string)
    (task_id task_type subject filename data : string) (st : router_state) :
  let input_path := (TEMP_FILE_DIR ++ "/" ++ task_id) ++ "/" ++ filename in
  mkdir_parents sv input_path = Ok tt -> open_for_write sv input_path = Ok tt ->
  (~ In task_type ["ppt_to_pdf"; "doc_to_markdown"; "docx_to_markdown"; "pdf_to_markdown"] ->
   exists st',
     upload_and_convert_file sv ai AI_PROVIDER TEMP_FILE_DIR OUTPUT_FILE_DIR task_id task_type subject filename data st
     = (Ok task_id, st') /\
     router_get_task_status (db st') task_id
     = Ok (TaskStatusResponse task_id "failed"
             (Some (JObj [("error_message", JStr ("Unknown task type: " ++ task_type));
                          ("source_filename", JStr filename)]))) /\
     rfs st' = fs_write input_path data (rfs st)) /\
  (In task_type ["doc_to_markdown"; "docx_to_markdown"; "pdf_to_markdown"] ->
   (forall p m k t subj ft, exists e, ai p m k t subj ft = Raise e) ->
   exists st' msg,
     upload_and_convert_file sv ai AI_PROVIDER TEMP_FILE_DIR OUTPUT_FILE_DIR task_id task_type subject filename data st
     = (Ok task_id, st') /\
     router_get_task_status (db st') task_id
     = Ok (TaskStatusResponse task_id "failed"
             (Some (JObj [("error_message", JStr msg); ("source_filename", JStr filename)])))).
Proof.
  intros input_path Hm Ho.
  pose proof (router_saved sv ai AI_PROVIDER TEMP_FILE_DIR OUTPUT_FILE_DIR task_id task_type subject
                filename data st Hm Ho) as H; cbv zeta in H; fold input_path in H.
  split.
  - intros Hn.
    assert (Hb : router_body sv ai AI_PROVIDER OUTPUT_FILE_DIR task_id task_type subject input_path
                   (fs_write input_path data (rfs st))
                 = (Raise (value_error ("Unknown task type: " ++ task_type)), fs_write input_path data (rfs st))).
    { unfold router_body.
      destruct (String.eqb_spec task_type "ppt_to_pdf") as [E|_]; [exfalso; apply Hn; rewrite E; simpl; tauto|].
      replace (existsb (String.eqb task_type) ["doc_to_markdown"; "docx_to_markdown"; "pdf_to_markdown"]) with false;
        [reflexivity|].
      symmetry; apply Bool.not_true_iff_false; intros Hx; apply existsb_exists in Hx.
      destruct Hx as (x & Hx & Ex); apply String.eqb_eq in Ex; subst x; apply Hn; simpl in *; tauto. }
    rewrite Hb in H; cbn [fst snd] in H. rewrite H.
    eexists; split; [reflexivity|]. split; [|reflexivity].
    unfold router_get_task_status; cbn [db assoc]; rewrite String.eqb_refl; reflexivity.
  - intros Hi Hai.
    assert (Hr : returns (fun _ => False)
                   (router_body sv ai AI_PROVIDER OUTPUT_FILE_DIR task_id task_type subject input_path)).
    { unfold router_body; cbv zeta.
      replace (String.eqb task_type "ppt_to_pdf") with false by (destruct Hi as [<-|[<-|[<-|[]]]]; reflexivity).
      replace (existsb (String.eqb task_type) ["doc_to_markdown"; "docx_to_markdown"; "pdf_to_markdown"]) with true
        by (destruct Hi as [<-|[<-|[<-|[]]]]; reflexivity).
      apply returns_bind; intros _. apply returns_bind; intros text. apply returns_bind; intros _.
      destruct (settings_attr sv (Ai.upper AI_PROVIDER ++ "_API_KEY")) as [k|]; [|apply returns_raise].
      destruct (PyStr.truthy k); [|apply returns_raise].
      apply ExtraAi.returns_lift_raise, Hai. }
    specialize (Hr (fs_write input_path data (rfs st))).
    destruct (router_body sv ai AI_PROVIDER OUTPUT_FILE_DIR task_id task_type subject input_path
                (fs_write input_path data (rfs st))) as [[p|e] f'] eqn:Eb; cbn [fst] in Hr; [contradiction|].
    cbn [fst snd] in H. rewrite H.
    exists (RouterState ((task_id, TaskStatusResponse task_id "failed"
                          (Some (JObj [("error_message", JStr (exn_msg e)); ("source_filename", JStr filename)])))
                         :: (task_id, TaskStatusResponse task_id "in_progress" None) :: db st) f'), (exn_msg e).
    split; [reflexivity|].
    unfold router_get_task_status; cbn [db assoc]; rewrite String.eqb_refl; reflexivity.
Qed.

Lemma router_failed_outcomes_witness :
  (exists st',
     upload_and_convert_file (sv_with "text" (Ok JNull) PyStr.nl) (fun _ _ _ _ _ _ => Ok JNull) "gemini" "tmp" "out"
       "id1" "translate" "General" "a.pdf" "bytes" (RouterState [] [])
     = (Ok "id1", st') /\
     router_get_task_status (db st') "id1"
     = Ok (TaskStatusResponse "id1" "failed"
             (Some (JObj [("error_message", JStr ("Unknown task type: " ++ "translate"));
                          ("source_filename", JStr "a.pdf")]))) /\
     rfs st' = fs_write (("tmp" ++ "/" ++ "id1") ++ "/" ++ "a.pdf") "bytes" (rfs (RouterState [] []))) /\
  (exists st' msg,
     upload_and_convert_file (sv_with "text" (Ok JNull) PyStr.nl)
       (fun p m k t subj ft => Ai.ai_generate (Ai.LlmEnv true true (fun _ => Raise (Exn "Error" "offline"))
                                                 (fun _ => Raise (Exn "Error" "offline"))) json_loads
                                 p (match m with Some x => x | None => "" end) k t subj ft)
       "gemini" "tmp" "out" "id1" "pdf_to_markdown" "General" "a.pdf" "bytes" (RouterState [] [])
     = (Ok "id1", st') /\
     router_get_task_status (db st') "id1"
     = Ok (TaskStatusResponse "id1" "failed"
             (Some (JObj [("error_message", JStr msg); ("source_filename", JStr "a.pdf")])))).
Proof.
  split.
  - apply (router_failed_outcomes (sv_with "text" (Ok JNull) PyStr.nl) (fun _ _ _ _ _ _ => Ok JNull) "gemini" "tmp" "out"
             "id1" "translate" "General" "a.pdf" "bytes" (RouterState [] [])); [reflexivity | reflexivity |].
    simpl; intuition discriminate.
  - apply (router_failed_outcomes (sv_with "text" (Ok JNull) PyStr.nl) _ "gemini" "tmp" "out"
             "id1" "pdf_to_markdown" "General" "a.pdf" "bytes" (RouterState [] [])); [reflexivity | reflexivity | |].
    + simpl; tauto.
    + intros p m k t subj ft. apply ExtraAi.app_ai_generate_raises.
Defined.

(** A [ppt_to_pdf] upload whose output directory and COM conversion
    succeed is recorded as [success], with the download URL of
    [<stem>.pdf] under the task id, the original file name and no
    warnings. *)
Theorem router_ppt_success (sv : services) (ai : ai_call) (AI_PROVIDER TEMP_FILE_DIR OUTPUT_FILE_DIR : string)
    (task_id subject filename data : string) (st : router_state) (f' : fs) :
  let input_path := (TEMP_FILE_DIR ++ "/" ++ task_id) ++ "/" ++ filename in
  let output_file_path := (OUTPUT_FILE_DIR ++ "/" ++ task_id) ++ "/" ++ path_stem input_path ++ ".pdf" in
  mkdir_parents sv input_path = Ok tt -> open_for_write sv input_path = Ok tt ->
  mkdir_parents sv output_file_path = Ok tt ->
  convert_to_pdf_com sv input_path output_file_path (fs_write input_path data (rfs st)) = (Ok tt, f') ->
  exists st',
    upload_and_convert_file sv ai AI_PROVIDER TEMP_FILE_DIR OUTPUT_FILE_DIR task_id "ppt_to_pdf" subject filename data st
    = (Ok task_id, st') /\ rfs st' = f' /\
    router_get_task_status (db st') task_id
    = Ok (TaskStatusResponse task_id "success"
            (Some (JObj [("output_file_url",
                          JStr ("/downloads/" ++ task_id ++ "/" ++ string_of_list_ascii (path_name output_file_path)));
                         ("source_filename", JStr filename); ("warnings", JArr [])]))).
Proof.
  intros input_path output_file_path Hm Ho Hd Hc.
  pose proof (router_saved sv ai AI_PROVIDER TEMP_FILE_DIR OUTPUT_FILE_DIR task_id "ppt_to_pdf" subject
                filename data st Hm Ho) as H; cbv zeta in H; fold input_path in H.
  assert (Hb : router_body sv ai AI_PROVIDER OUTPUT_FILE_DIR task_id "ppt_to_pdf" subject input_path
                 (fs_write input_path data (rfs st)) = (Ok (output_file_path, JObj []), f')).
  { unfold router_body; cbv zeta; rewrite String.eqb_refl; cbv beta iota; fold output_file_path.
    unfold bind, lift, ret; rewrite Hd; cbv beta iota; rewrite Hc; reflexivity. }
  rewrite Hb in H; cbn [fst snd] in H; rewrite H.
  eexists; split; [reflexivity|]. split; [reflexivity|].
  unfold router_get_task_status; cbn [db assoc]; rewrite String.eqb_refl; reflexivity.
Qed.

Lemma router_ppt_success_witness :
  exists st',
    upload_and_convert_file (sv_with "text" (Ok JNull) PyStr.nl) (fun _ _ _ _ _ _ => Ok JNull) "gemini" "tmp" "out"
      "id1" "ppt_to_pdf" "General" "deck.pptx" "bytes" (RouterState [] [])
    = (Ok "id1", st') /\ rfs st' = [(("tmp" ++ "/" ++ "id1") ++ "/" ++ "deck.pptx", "bytes")] /\
    router_get_task_status (db st') "id1"
    = Ok (TaskStatusResponse "id1" "success"
            (Some (JObj [("output_file_url",
                          JStr ("/downloads/" ++ "id1" ++ "/"
                                ++ string_of_list_ascii (path_name (("out" ++ "/" ++ "id1") ++ "/"
                                     ++ path_stem (("tmp" ++ "/" ++ "id1") ++ "/" ++ "deck.pptx") ++ ".pdf"))));
                         ("source_filename", JStr "deck.pptx"); ("warnings", JArr [])]))).
Proof. apply router_ppt_success; reflexivity. Defined.

End ExtraRouter.
